(** * The patient-records request handler (src/lambda.py)

    A shallow embedding of the Lambda handler: the JSON values it moves
    around, the [PatientsTable] it reads and writes, the nine operation
    handlers and the dispatcher, followed by the properties of the
    specification that were checked against them. *)

From Stdlib Require Import Ascii String ZArith List Lia.
From stdpp Require Import base option list strings gmap fin_maps.

Local Open Scope string_scope.
Local Open Scope Z_scope.

(** ** JSON values

    What [json.loads] produces and what the table stores: Python's [None],
    [bool], [int], [float] (by its binary64 bit pattern), [str], [list] and
    [dict].  A [dict] is a finite map on strings. *)

#[warnings="-register-all"]
Inductive json : Type :=
  | JNull
  | JBool (b : bool)
  | JInt (z : Z)
  | JFloat (bits : Z)
  | JStr (s : string)
  | JList (l : list json)
  | JObj (m : gmap string json).

(** Exceptions the handler can meet.  [ClientError] is botocore's and
    carries [e.response["Error"]["Message"]]; the others are Python's own. *)
Inductive exn : Type :=
  | ClientError (msg : string)
  | KeyError (key : string)
  | TypeError
  | AttributeError
  | JSONDecodeError.

(** ** The table

    Rows are addressed by the pair of their [id] and [type] attributes. *)

Abbreviation key := (string * string)%type (only parsing).
Abbreviation item := (gmap string json) (only parsing).

(** Update expressions, as far as the handler writes them:
    [SET a = <operand>, ...] over placeholders, [if_not_exists] and
    [list_append]. *)
Inductive operand : Type :=
  | Placeholder (name : string)
  | IfNotExists (attr : string) (dflt : operand)
  | ListAppend (o1 o2 : operand).

Abbreviation update_expression := (list (string * operand)) (only parsing).

Inductive store_call : Type :=
  | GetItem (k : key)
  | PutItem (it : item)
  | UpdateItem (k : key) (e : update_expression) (vals : item)
  | DeleteItem (k : key).

(** The world an invocation runs in: the table, the store calls issued so
    far (latest first), and how many times the clock and the random source
    have been read. *)
Record world : Type := World {
  table : gmap key item;
  calls : list store_call;
  clock : nat;
  entropy : nat
}.

(** What the Python runtime and its libraries supply. *)
Class Runtime : Type := {
  json_loads : string -> option json;   (* [json.loads]; [None]: it raises *)
  json_dumps : json -> string;          (* [json.dumps] *)
  unquote : string -> string;           (* [urllib.parse.unquote] *)
  isoformat_now : nat -> string;        (* text of the n-th [datetime.now().isoformat()] *)
  uuid4 : nat -> string;                (* text of the n-th [uuid.uuid4()] *)
  exc_str : exn -> string               (* [str(e)] *)
}.

(** ** Computations: state and exceptions *)

Definition M (A : Type) : Type := world -> (exn + A) * world.

#[global] Instance M_ret : MRet M := fun A a w => (inr a, w).

#[global] Instance M_bind : MBind M := fun A B f c w =>
  match c w with
  | (inr a, w') => f a w'
  | (inl e, w') => (inl e, w')
  end.

Definition raise {A : Type} (e : exn) : M A := fun w => (inl e, w).

Definition lift {A : Type} (r : exn + A) : M A := fun w => (r, w).

(** [try: c  except ClientError as e: h msg]; other exceptions go on. *)
Definition except_ClientError {A : Type} (c : M A) (h : string -> M A) : M A :=
  fun w =>
    match c w with
    | (inl (ClientError msg), w') => h msg w'
    | r => r
    end.

(** ** Python's operators on JSON values *)

(** [o[k]] for a string [k]. *)
Definition subscript (o : json) (k : string) : exn + json :=
  match o with
  | JObj m =>
      match m !! k with
      | Some v => inr v
      | None => inl (KeyError k)
      end
  | _ => inl TypeError
  end.

(** [v == s] for a string [s]. *)
Definition eq_str (v : json) (s : string) : bool :=
  match v with
  | JStr s' => String.eqb s' s
  | _ => false
  end.

(** [bool(v)]. *)
Definition truthy (v : json) : bool :=
  match v with
  | JNull => false
  | JBool b => b
  | JInt z => negb (z =? 0)
  | JFloat bits => negb (bits mod 2 ^ 63 =? 0)
  | JStr s => negb (String.eqb s "")
  | JList l => match l with [] => false | _ => true end
  | JObj m => negb (bool_decide (m = ∅))
  end.

(** [iter(v)]: the elements a [for] loop visits. *)
Definition py_iter (v : json) : exn + list json :=
  match v with
  | JList l => inr l
  | JStr s => inr ((fun c => JStr (String c EmptyString)) <$> list_ascii_of_string s)
  | JObj m => inr ((fun kv => JStr kv.1) <$> map_to_list m)
  | _ => inl TypeError
  end.

(** [d.items()]. *)
Definition dict_items (v : json) : exn + list (string * json) :=
  match v with
  | JObj m => inr (map_to_list m)
  | _ => inl AttributeError
  end.

(** ** Store operations *)

Definition log_call (c : store_call) (w : world) : world :=
  World (table w) (c :: calls w) (clock w) (entropy w).

Definition set_table (t : gmap key item) (w : world) : world :=
  World t (calls w) (clock w) (entropy w).

Definition get_item (k : key) : M (option item) :=
  fun w => (inr (table w !! k), log_call (GetItem k) w).

(** [put_item]: the row's key is read off its [id] and [type] attributes,
    which have to be strings. *)
Definition item_key (it : item) : option key :=
  match it !! "id", it !! "type" with
  | Some (JStr i), Some (JStr t) => Some (i, t)
  | _, _ => None
  end.

Definition put_item (it : item) : M unit :=
  fun w =>
    let w1 := log_call (PutItem it) w in
    match item_key it with
    | Some k => (inr tt, set_table (<[k := it]> (table w)) w1)
    | None => (inl (ClientError "One or more parameter values were invalid"), w1)
    end.

Definition delete_item (k : key) : M unit :=
  fun w => (inr tt, set_table (delete k (table w)) (log_call (DeleteItem k) w)).

(** The value of an operand, read against the row as it was before the
    update. *)
Fixpoint eval_operand (old vals : item) (o : operand) : option json :=
  match o with
  | Placeholder n => vals !! n
  | IfNotExists a d =>
      match old !! a with
      | Some v => Some v
      | None => eval_operand old vals d
      end
  | ListAppend o1 o2 =>
      match eval_operand old vals o1, eval_operand old vals o2 with
      | Some (JList l1), Some (JList l2) => Some (JList (l1 ++ l2)%list)
      | _, _ => None
      end
  end.

Fixpoint apply_set (old vals : item) (e : update_expression) (acc : item)
  : option item :=
  match e with
  | [] => Some acc
  | (a, o) :: e' =>
      match eval_operand old vals o with
      | Some v => apply_set old vals e' (<[a := v]> acc)
      | None => None
      end
  end.

(** A row that does not exist yet starts from its key attributes alone. *)
Definition key_item (k : key) : item :=
  <["id" := JStr k.1]> (<["type" := JStr k.2]> ∅).

(** [update_item]; the result is the row after the update
    ([ReturnValues="ALL_NEW"]).  The store's checks on attribute names are
    not modelled: an expression is refused only when an operand has no
    value. *)
Definition update_item (k : key) (e : update_expression) (vals : item) : M item :=
  fun w =>
    let w1 := log_call (UpdateItem k e vals) w in
    let old := default (key_item k) (table w !! k) in
    match apply_set old vals e old with
    | Some new => (inr new, set_table (<[k := new]> (table w)) w1)
    | None =>
        (inl (ClientError "An operand in the update expression has an incorrect data type"),
         w1)
    end.

(** ** Responses *)

Record response : Type := Response {
  statusCode : Z;
  headers : list (string * string);
  body : string
}.

Definition cors_headers : list (string * string) :=
  [ ("Access-Control-Allow-Origin", "*");
    ("Access-Control-Allow-Methods", "GET,POST,PUT,DELETE,OPTIONS");
    ("Access-Control-Allow-Headers", "Content-Type,Authorization") ].

Section Handlers.
Context `{Runtime}.

Definition response_with_cors (status_code : Z) (payload : json) : response :=
  Response status_code cors_headers (json_dumps payload).

(** [datetime.now().isoformat()] and [uuid.uuid4()] read the world. *)
Definition now : M string :=
  fun w => (inr (isoformat_now (clock w)),
            World (table w) (calls w) (S (clock w)) (entropy w)).

Definition fresh_uuid : M string :=
  fun w => (inr (uuid4 (entropy w)),
            World (table w) (calls w) (clock w) (S (entropy w))).

(** [urllib.parse.unquote(event['pathParameters'][name])]. *)
Definition unquote_value (v : json) : exn + string :=
  match v with
  | JStr s => inr (unquote s)
  | JList l => inl (if existsb (fun x => eq_str x "%") l then TypeError else AttributeError)
  | JObj m => inl (if bool_decide (is_Some (m !! "%")) then TypeError else AttributeError)
  | _ => inl TypeError
  end.

Definition path_parameter (event : item) (name : string) : M string :=
  params ← lift (subscript (JObj event) "pathParameters");
  v ← lift (subscript params name);
  lift (unquote_value v).

(** [json.loads(event['body'])]. *)
Definition loads_value (v : json) : exn + json :=
  match v with
  | JStr s =>
      match json_loads s with
      | Some j => inr j
      | None => inl JSONDecodeError
      end
  | _ => inl TypeError
  end.

Definition request_body (event : item) : M json :=
  raw ← lift (subscript (JObj event) "body");
  lift (loads_value raw).

Definition patient_key (patient_id : string) : key := (patient_id, "Patient").

(** *** Patients *)

Definition create_patient (event : item) : M response :=
  body ← request_body event;
  id ← lift (subscript body "id");
  name ← lift (subscript body "name");
  email ← lift (subscript body "email");
  dateOfBirth ← lift (subscript body "dateOfBirth");
  bloodType ← lift (subscript body "bloodType");
  allergies ← lift (subscript body "allergies");
  medicalHistory ← lift (subscript body "medicalHistory");
  emergencyContacts ← lift (subscript body "emergencyContacts");
  currentMedications ← lift (subscript body "currentMedications");
  createdAt ← now;
  updatedAt ← now;
  let patient : item :=
    list_to_map
      [ ("id", id); ("type", JStr "Patient"); ("name", name); ("email", email);
        ("dateOfBirth", dateOfBirth); ("bloodType", bloodType);
        ("allergies", allergies); ("medicalHistory", medicalHistory);
        ("emergencyContacts", emergencyContacts);
        ("currentMedications", currentMedications);
        ("createdAt", JStr createdAt); ("updatedAt", JStr updatedAt);
        ("notes", JList []) ] in
  put_item patient;;
  mret (response_with_cors 201 (JObj patient)).

Definition get_patient (event : item) : M response :=
  patient_id ← path_parameter event "id";
  resp ← get_item (patient_key patient_id);
  match resp with
  | Some it => mret (response_with_cors 200 (JObj it))
  | None => mret (response_with_cors 404 (JStr "Patient not found"))
  end.

Definition update_patient (event : item) : M response :=
  patient_id ← path_parameter event "id";
  body ← request_body event;
  items ← lift (dict_items body);
  let update_expression : update_expression :=
    (map (fun kv => (kv.1, Placeholder (":" ++ kv.1))) items
       ++ [("updatedAt", Placeholder ":updatedAt")])%list in
  let expression_attribute_values : item :=
    foldl (fun acc kv => <[":" ++ kv.1 := kv.2]> acc) ∅ items in
  t ← now;
  let expression_attribute_values :=
    <[":updatedAt" := JStr t]> expression_attribute_values in
  attrs ← update_item (patient_key patient_id) update_expression
            expression_attribute_values;
  mret (response_with_cors 200 (JObj attrs)).

Definition delete_patient (event : item) : M response :=
  patient_id ← path_parameter event "id";
  delete_item (patient_key patient_id);;
  mret (response_with_cors 204 JNull).

(** *** Notes *)

(** [:note] and [:empty_list] of the append, and the append itself. *)
Definition append_expression : update_expression :=
  [("notes",
    ListAppend (IfNotExists "notes" (Placeholder ":empty_list"))
               (Placeholder ":note"))].

Definition add_note_to_patient (event : item) : M response :=
  patient_id ← path_parameter event "id";
  body ← request_body event;
  match body with
  | JObj b =>
      u ← fresh_uuid;
      let note_id := default (JStr ("Note#" ++ u)) (b !! "id") in
      if negb (bool_decide (is_Some (b !! "author")))
         || negb (bool_decide (is_Some (b !! "content")))
      then mret (response_with_cors 400
                   (JStr "Missing required fields: author and content are required."))
      else
        content ← lift (subscript body "content");
        let content_list :=
          match content with
          | JStr _ => JList [content]
          | _ => content
          end in
        author ← lift (subscript body "author");
        createdAt ← now;
        updatedAt ← now;
        let note : item :=
          list_to_map
            [ ("id", note_id); ("patientId", JStr patient_id); ("author", author);
              ("createdAt", JStr createdAt); ("updatedAt", JStr updatedAt);
              ("type", JStr "Note"); ("content", content_list) ] in
        except_ClientError
          (attrs ← update_item (patient_key patient_id) append_expression
                     (<[":note" := JList [JObj note]]>
                        (<[":empty_list" := JList []]> ∅));
           mret (response_with_cors 201 (JObj attrs)))
          (fun msg =>
             mret (response_with_cors 500 (JStr ("Error adding note: " ++ msg))))
  | _ => raise AttributeError          (* [body.get] on something not a dict *)
  end.

Definition get_all_notes_for_patient (event : item) : M response :=
  patient_id ← path_parameter event "id";
  resp ← get_item (patient_key patient_id);
  match resp with
  | Some it =>
      match it !! "notes" with
      | Some notes => mret (response_with_cors 200 notes)
      | None => mret (response_with_cors 404 (JStr "No notes found for this patient"))
      end
  | None => mret (response_with_cors 404 (JStr "No notes found for this patient"))
  end.

(** [next((note for note in notes if note['id'] == note_id), None)] *)
Fixpoint find_note (note_id : string) (notes : list json) : exn + option json :=
  match notes with
  | [] => inr None
  | note :: rest =>
      match subscript note "id" with
      | inl e => inl e
      | inr i => if eq_str i note_id then inr (Some note) else find_note note_id rest
      end
  end.

(** [next((i for i, note in enumerate(notes) if note['id'] == note_id), None)],
    counting from [start]. *)
Fixpoint find_note_index (note_id : string) (start : nat) (notes : list json)
  : exn + option nat :=
  match notes with
  | [] => inr None
  | note :: rest =>
      match subscript note "id" with
      | inl e => inl e
      | inr i =>
          if eq_str i note_id then inr (Some start)
          else find_note_index note_id (S start) rest
      end
  end.

(** [[note for note in notes if note['id'] != note_id]] *)
Fixpoint without_note (note_id : string) (notes : list json) : exn + list json :=
  match notes with
  | [] => inr []
  | note :: rest =>
      match subscript note "id" with
      | inl e => inl e
      | inr i =>
          match without_note note_id rest with
          | inl e => inl e
          | inr rest' => inr (if negb (eq_str i note_id) then note :: rest' else rest')
          end
      end
  end.

Definition get_note (event : item) : M response :=
  patient_id ← path_parameter event "id";
  note_id ← path_parameter event "noteId";
  resp ← get_item (patient_key patient_id);
  match resp with
  | Some it =>
      match it !! "notes" with
      | Some notes =>
          elems ← lift (py_iter notes);
          note ← lift (find_note note_id elems);
          match note with
          | Some n =>
              if negb (truthy n)
              then mret (response_with_cors 404 (JStr "Note not found"))
              else mret (response_with_cors 200 n)
          | None => mret (response_with_cors 404 (JStr "Note not found"))
          end
      | None => mret (response_with_cors 404 (JStr "Note not found"))
      end
  | None => mret (response_with_cors 404 (JStr "Note not found"))
  end.

(** [for key, value in body.items(): note[key] = value] *)
Definition merge_items (note : item) (items : list (string * json)) : item :=
  foldl (fun acc kv => <[kv.1 := kv.2]> acc) note items.

Definition update_note (event : item) : M response :=
  patient_id ← path_parameter event "id";
  note_id ← path_parameter event "noteId";
  body ← request_body event;
  resp ← get_item (patient_key patient_id);
  match resp with
  | Some it =>
      match it !! "notes" with
      | Some notes =>
          elems ← lift (py_iter notes);
          note_index ← lift (find_note_index note_id 0 elems);
          match note_index with
          | None => mret (response_with_cors 404 (JStr "Note not found"))
          | Some i =>
              items ← lift (dict_items body);
              match notes, elems !! i with
              | JList l, Some (JObj n) =>
                  t ← now;
                  let n' := <["updatedAt" := JStr t]> (merge_items n items) in
                  let notes' := <[i := JObj n']> l in
                  attrs ← update_item (patient_key patient_id)
                            [("notes", Placeholder ":notes")]
                            (<[":notes" := JList notes']> ∅);
                  mret (response_with_cors 200 (JObj attrs))
              | _, _ => raise TypeError  (* the scan stops only at a dict of a list *)
              end
          end
      | None => mret (response_with_cors 404 (JStr "Note not found"))
      end
  | None => mret (response_with_cors 404 (JStr "Note not found"))
  end.

Definition delete_note (event : item) : M response :=
  patient_id ← path_parameter event "id";
  note_id ← path_parameter event "noteId";
  resp ← get_item (patient_key patient_id);
  match resp with
  | Some it =>
      match it !! "notes" with
      | Some notes =>
          elems ← lift (py_iter notes);
          new_notes ← lift (without_note note_id elems);
          update_item (patient_key patient_id)
            [("notes", Placeholder ":notes")]
            (<[":notes" := JList new_notes]> ∅);;
          mret (response_with_cors 204 JNull)
      | None => mret (response_with_cors 404 (JStr "Note not found"))
      end
  | None => mret (response_with_cors 404 (JStr "Note not found"))
  end.

(** *** The dispatcher *)

Inductive operation : Type :=
  | CreatePatient | GetPatient | UpdatePatient | DeletePatient
  | AddNote | ListNotes | GetNote | UpdateNote | DeleteNote.

Definition handler (op : operation) : item -> M response :=
  match op with
  | CreatePatient => create_patient
  | GetPatient => get_patient
  | UpdatePatient => update_patient
  | DeletePatient => delete_patient
  | AddNote => add_note_to_patient
  | ListNotes => get_all_notes_for_patient
  | GetNote => get_note
  | UpdateNote => update_note
  | DeleteNote => delete_note
  end.

(** The two responses of the dispatcher itself. *)
Definition bad_request : response :=
  response_with_cors 400 (JStr "Invalid request. Resource or method not found.").

Definition not_allowed : response :=
  response_with_cors 405 (JStr "Method Not Allowed").

(** The body of the [try] block. *)
Definition dispatch (event : item) : M response :=
  let resource := default (JStr "UNKNOWN") (event !! "resource") in
  let method := default (JStr "UNKNOWN") (event !! "httpMethod") in
  if eq_str resource "UNKNOWN" || eq_str method "UNKNOWN" then
    mret (response_with_cors 400 (JStr "Invalid request. Resource or method not found."))
  else if eq_str resource "/patients" && eq_str method "POST" then
    create_patient event
  else if eq_str resource "/patients/{id}" && eq_str method "GET" then
    get_patient event
  else if eq_str resource "/patients/{id}" && eq_str method "PUT" then
    update_patient event
  else if eq_str resource "/patients/{id}" && eq_str method "DELETE" then
    delete_patient event
  else if eq_str resource "/patients/{id}/notes" && eq_str method "POST" then
    add_note_to_patient event
  else if eq_str resource "/patients/{id}/notes" && eq_str method "GET" then
    get_all_notes_for_patient event
  else if eq_str resource "/patients/{id}/notes/{noteId}" && eq_str method "GET" then
    get_note event
  else if eq_str resource "/patients/{id}/notes/{noteId}" && eq_str method "PUT" then
    update_note event
  else if eq_str resource "/patients/{id}/notes/{noteId}" && eq_str method "DELETE" then
    delete_note event
  else
    mret (response_with_cors 405 (JStr "Method Not Allowed")).

(** The two [except] clauses: nothing gets past the handler.  (The line
    printed before the [try] is output only and is left out.) *)
Definition recover (r : (exn + response) * world) : response * world :=
  match r with
  | (inr resp, w') => (resp, w')
  | (inl (ClientError msg), w') =>
      (response_with_cors 500 (JStr ("Error: " ++ msg)), w')
  | (inl e, w') =>
      (response_with_cors 500 (JStr ("Unexpected error: " ++ exc_str e)), w')
  end.

Definition lambda_handler (event : item) (w : world) : response * world :=
  recover (dispatch event w).

End Handlers.

(** ** Requests as the gateway sends them *)

Section Requests.
Context `{Runtime}.

(** The path parameter [name] of the event percent-decodes to [value]. *)
Definition path_param (event : item) (name value : string) : Prop :=
  exists (ps : item) (raw : string),
    event !! "pathParameters" = Some (JObj ps)
    /\ ps !! name = Some (JStr raw)
    /\ unquote raw = value.

(** The event's body is a text that decodes to [j]. *)
Definition body_is (event : item) (j : json) : Prop :=
  exists text : string,
    event !! "body" = Some (JStr text) /\ json_loads text = Some j.

End Requests.

(** The routing table of the specification (section 4.1). *)
Definition routing_table : list (string * string * operation) :=
  [ ("/patients", "POST", CreatePatient);
    ("/patients/{id}", "GET", GetPatient);
    ("/patients/{id}", "PUT", UpdatePatient);
    ("/patients/{id}", "DELETE", DeletePatient);
    ("/patients/{id}/notes", "POST", AddNote);
    ("/patients/{id}/notes", "GET", ListNotes);
    ("/patients/{id}/notes/{noteId}", "GET", GetNote);
    ("/patients/{id}/notes/{noteId}", "PUT", UpdateNote);
    ("/patients/{id}/notes/{noteId}", "DELETE", DeleteNote) ].

(** A [(path, method)] pair, as found in the event, is no row of the table. *)
Definition unrouted (resource method : json) : Prop :=
  forall p m op, In (p, m, op) routing_table ->
    ~ (resource = JStr p /\ method = JStr m).

(** A well-formed note is an object that carries an [id]. *)
Definition has_id (n : item) : Prop := is_Some (n !! "id").

(** No note of the list bears the id [i]. *)
Definition id_free (i : string) (ns : list item) : Prop :=
  Forall (fun n : item => n !! "id" <> Some (JStr i)) ns.

(** What is left of the notes once the bearers of [i] are dropped. *)
Definition others (i : string) (ns : list item) : list item :=
  List.filter (fun n : item => negb (eq_str (default JNull (n !! "id")) i)) ns.

(** The body fields the create operation reads. *)
Definition patient_fields : list string :=
  [ "id"; "name"; "email"; "dateOfBirth"; "bloodType"; "allergies";
    "medicalHistory"; "emergencyContacts"; "currentMedications" ].

(** The notes a patient has in the table: none when the row or its notes
    attribute is absent; undefined when the attribute is no list. *)
Definition stored_notes (w : world) (pid : string) : option (list json) :=
  match table w !! (pid, "Patient") with
  | None => Some []
  | Some row =>
      match row !! "notes" with
      | None => Some []
      | Some (JList l) => Some l
      | Some _ => None
      end
  end.



(** ** A concrete runtime and concrete requests

    An instance of [Runtime] that agrees with CPython on the texts used
    below, an empty table, and the requests of the specification's
    scenarios. *)

Module Demo.

Definition dq : string := String "034"%char EmptyString.
Definition q (s : string) : string := dq ++ s ++ dq.

(** [{"id":"p1","name":"A",...,"currentMedications":[]}] *)
Definition create_text : string :=
  "{" ++ q "id" ++ ":" ++ q "p1" ++ "," ++ q "name" ++ ":" ++ q "A" ++ ","
  ++ q "email" ++ ":" ++ q "a@a.com" ++ ","
  ++ q "dateOfBirth" ++ ":" ++ q "2000-01-01" ++ ","
  ++ q "bloodType" ++ ":" ++ q "O+" ++ ","
  ++ q "allergies" ++ ":[]," ++ q "medicalHistory" ++ ":[],"
  ++ q "emergencyContacts" ++ ":[]," ++ q "currentMedications" ++ ":[]}".

Definition create_json : item :=
  list_to_map
    [ ("id", JStr "p1"); ("name", JStr "A"); ("email", JStr "a@a.com");
      ("dateOfBirth", JStr "2000-01-01"); ("bloodType", JStr "O+");
      ("allergies", JList []); ("medicalHistory", JList []);
      ("emergencyContacts", JList []); ("currentMedications", JList []) ].

(** [{"email":"x@y.com"}] *)
Definition email_text : string := "{" ++ q "email" ++ ":" ++ q "x@y.com" ++ "}".
Definition email_json : item := {[ "email" := JStr "x@y.com" ]}.

(** [{"id":"n1","author":"Dr.Who","content":"stable"}] *)
Definition note1_text : string :=
  "{" ++ q "id" ++ ":" ++ q "n1" ++ "," ++ q "author" ++ ":" ++ q "Dr.Who" ++ ","
  ++ q "content" ++ ":" ++ q "stable" ++ "}".
Definition note1_json : item :=
  list_to_map [ ("id", JStr "n1"); ("author", JStr "Dr.Who"); ("content", JStr "stable") ].

(** [{"id":"n2","author":"Dr.Who","content":["a","b"]}] *)
Definition note2_text : string :=
  "{" ++ q "id" ++ ":" ++ q "n2" ++ "," ++ q "author" ++ ":" ++ q "Dr.Who" ++ ","
  ++ q "content" ++ ":[" ++ q "a" ++ "," ++ q "b" ++ "]}".
Definition note2_json : item :=
  list_to_map [ ("id", JStr "n2"); ("author", JStr "Dr.Who");
                ("content", JList [JStr "a"; JStr "b"]) ].

(** [{"content":"stable"}]: no author. *)
Definition no_author_text : string := "{" ++ q "content" ++ ":" ++ q "stable" ++ "}".
Definition no_author_json : item := {[ "content" := JStr "stable" ]}.

(** [{"updatedAt":"never"}] *)
Definition stamp_text : string := "{" ++ q "updatedAt" ++ ":" ++ q "never" ++ "}".
Definition stamp_json : item := {[ "updatedAt" := JStr "never" ]}.

Definition loads (text : string) : option json :=
  snd <$> List.find (fun e => String.eqb text e.1)
    [ (create_text, JObj create_json); (email_text, JObj email_json);
      (note1_text, JObj note1_json); (note2_text, JObj note2_json);
      (no_author_text, JObj no_author_json); (stamp_text, JObj stamp_json) ].

Definition dumps (j : json) : string :=
  match j with
  | JNull => "null"
  | JStr s => q s
  | JList [] => "[]"
  | _ => "{}"
  end.

Definition clock_text (n : nat) : string :=
  nth n [ "2024-03-01T09:00:00.000100"; "2024-03-01T09:00:00.000104";
          "2024-03-01T09:05:10.250000"; "2024-03-01T09:05:10.250003";
          "2024-03-01T09:06:00.500000"; "2024-03-01T09:06:00.500002";
          "2024-03-01T09:10:00.750000"; "2024-03-01T09:12:00.125000" ]
        "2024-03-02T00:00:00".

Definition uuid_text (n : nat) : string :=
  nth n [ "3f2b8c1e-0d4a-4c52-9a77-5b1de0c6a001";
          "a81c44d2-6e0f-4b39-8f10-2c9d7e5b4002" ]
        "c07e9a55-12f3-4d68-b6a4-90e1f3d2c003".

Definition exc_text (e : exn) : string :=
  match e with
  | ClientError msg => msg
  | KeyError k => "'" ++ k ++ "'"
  | TypeError => "unsupported operand"
  | AttributeError => "no such attribute"
  | JSONDecodeError => "Expecting value: line 1 column 1 (char 0)"
  end.

#[global] Instance runtime : Runtime := {|
  json_loads := loads;
  json_dumps := dumps;
  unquote := fun s => s;
  isoformat_now := clock_text;
  uuid4 := uuid_text;
  exc_str := exc_text
|}.

Definition w0 : world := World ∅ [] 0 0.

(** A request: resource, method, path parameters and (maybe) a body. *)
Definition request (resource method : string) (params : list (string * string))
    (text : option string) : item :=
  let ev : item :=
    <["resource" := JStr resource]>
      (<["httpMethod" := JStr method]>
         (<["pathParameters" := JObj (list_to_map (prod_map id JStr <$> params))]> ∅)) in
  match text with
  | Some t => <["body" := JStr t]> ev
  | None => <["body" := JNull]> ev
  end.

Definition post_patient : item := request "/patients" "POST" [] (Some create_text).
Definition get_p1 : item := request "/patients/{id}" "GET" [("id", "p1")] None.
Definition delete_p1 : item := request "/patients/{id}" "DELETE" [("id", "p1")] None.
Definition post_note1 : item :=
  request "/patients/{id}/notes" "POST" [("id", "p1")] (Some note1_text).
Definition post_note2 : item :=
  request "/patients/{id}/notes" "POST" [("id", "p1")] (Some note2_text).
Definition post_no_author : item :=
  request "/patients/{id}/notes" "POST" [("id", "p1")] (Some no_author_text).
Definition list_notes_p1 : item :=
  request "/patients/{id}/notes" "GET" [("id", "p1")] None.
Definition note_request (method note_id : string) (text : option string) : item :=
  request "/patients/{id}/notes/{noteId}" method [("id", "p1"); ("noteId", note_id)] text.

(** The table after [POST /patients] and after the two notes. *)
Definition w_created : world := (create_patient post_patient w0).2.
Definition w_two_notes : world :=
  (add_note_to_patient post_note2 (add_note_to_patient post_note1 w_created).2).2.

(** The row of p1 after [POST /patients]. *)
Definition created_row : item :=
  default ∅ (table w_created !! ("p1", "Patient")).

(** The row of p1 once it has its two notes, and those notes. *)
Definition row_two_notes : item :=
  default ∅ (table w_two_notes !! ("p1", "Patient")).

Definition two_notes : list item :=
  match row_two_notes !! "notes" with
  | Some (JList l) =>
      omap (fun j => match j with JObj n => Some n | _ => None end) l
  | _ => []
  end.

End Demo.

(** The same runtime with a decoder that also knows the empty array. *)
Definition array_runtime : Runtime := {|
  json_loads := fun text =>
    if String.eqb text "[]" then Some (JList []) else Demo.loads text;
  json_dumps := Demo.dumps;
  unquote := fun s => s;
  isoformat_now := Demo.clock_text;
  uuid4 := Demo.uuid_text;
  exc_str := Demo.exc_text
|}.

(** ** Vocabulary for what an operation does to the world *)

(** The status codes the handler answers with. *)
Definition status_codes : list Z := [200; 201; 204; 400; 404; 405; 500].

(** A response as [response_with_cors] builds them. *)
Definition well_formed_response (r : response) : Prop :=
  headers r = cors_headers /\ In (statusCode r) status_codes.

(** Every response the computation returns satisfies [P]. *)
Definition yields (P : response -> Prop) (c : M response) : Prop :=
  forall (w : world) (r : response) (w' : world), c w = (inr r, w') -> P r.

(** Whatever the computation does, raising included, the world it leaves is
    related by [R] to the one it started in. *)
Definition respects {A : Type} (R : world -> world -> Prop) (c : M A) : Prop :=
  forall (w : world) (r : exn + A) (w' : world), c w = (r, w') -> R w w'.

Definition is_get (c : store_call) : Prop :=
  match c with
  | GetItem _ => True
  | _ => False
  end.

(** The table is the same and the store has seen reads only. *)
Definition only_read (w w' : world) : Prop :=
  table w' = table w
  /\ exists l : list store_call, calls w' = (l ++ calls w)%list /\ Forall is_get l.

(** Every row but the one at [k] is as it was. *)
Definition same_elsewhere (k : key) (w w' : world) : Prop :=
  forall k' : key, k' <> k -> table w' !! k' = table w !! k'.

(** The store has not been called at all. *)
Definition store_untouched (w w' : world) : Prop :=
  table w' = table w /\ calls w' = calls w.

(** The attributes of a row as create writes it. *)
Definition row_attributes : list string :=
  (patient_fields ++ ["type"; "createdAt"; "updatedAt"; "notes"])%list.

(** The answer of the last [except] clause. *)
Definition unexpected_error `{Runtime} (e : exn) : response :=
  response_with_cors 500 (JStr ("Unexpected error: " ++ exc_str e)).

(** The operations that read the request body. *)
Definition reads_body (op : operation) : Prop :=
  op = CreatePatient \/ op = UpdatePatient \/ op = AddNote \/ op = UpdateNote.

(** The operations on one note of a patient. *)
Definition on_one_note (op : operation) : Prop :=
  op = GetNote \/ op = UpdateNote \/ op = DeleteNote.

(** The attributes of a note as add-note writes it. *)
Definition note_attributes : list string :=
  ["id"; "patientId"; "author"; "createdAt"; "updatedAt"; "type"; "content"].

(** ** Running the handlers: equations *)

Section Running.
Context `{Runtime}.

Lemma bind_run {A B : Type} (c : M A) (f : A -> M B) (w : world) :
  (c ≫= f) w =
  match c w with
  | (inr a, w') => f a w'
  | (inl e, w') => (inl e, w')
  end.
Proof. reflexivity. Qed.

Lemma path_parameter_run (event : item) (name value : string) (w : world) :
  path_param event name value ->
  path_parameter event name w = (inr value, w).
Proof.
  intros (ps & raw & Hps & Hraw & <-).
  unfold path_parameter. rewrite !bind_run. unfold lift, subscript.
  rewrite Hps. cbn. rewrite Hraw. reflexivity.
Qed.

Lemma request_body_run (event : item) (j : json) (w : world) :
  body_is event j -> request_body event w = (inr j, w).
Proof.
  intros (text & Hb & Hj).
  unfold request_body. rewrite bind_run. unfold lift, subscript.
  rewrite Hb. cbn. rewrite Hj. reflexivity.
Qed.

Lemma bind_path_parameter {B : Type} (event : item) (name value : string)
    (f : string -> M B) (w : world) :
  path_param event name value ->
  (path_parameter event name ≫= f) w = f value w.
Proof. intros Hp. rewrite bind_run, (path_parameter_run _ _ _ _ Hp). reflexivity. Qed.

Lemma bind_request_body {B : Type} (event : item) (j : json)
    (f : json -> M B) (w : world) :
  body_is event j -> (request_body event ≫= f) w = f j w.
Proof. intros Hb. rewrite bind_run, (request_body_run _ _ _ Hb). reflexivity. Qed.

Lemma bind_subscript {B : Type} (b : item) (k : string) (v : json)
    (f : json -> M B) (w : world) :
  b !! k = Some v -> (lift (subscript (JObj b) k) ≫= f) w = f v w.
Proof. intros Hk. rewrite bind_run. unfold lift, subscript. rewrite Hk. reflexivity. Qed.

Lemma bind_lift {A B : Type} (a : A) (f : A -> M B) (w : world) :
  (lift (inr a) ≫= f) w = f a w.
Proof. reflexivity. Qed.

Lemma bind_now {B : Type} (f : string -> M B) (w : world) :
  (now ≫= f) w
  = f (isoformat_now (clock w)) (World (table w) (calls w) (S (clock w)) (entropy w)).
Proof. reflexivity. Qed.

Lemma bind_fresh_uuid {B : Type} (f : string -> M B) (w : world) :
  (fresh_uuid ≫= f) w
  = f (uuid4 (entropy w)) (World (table w) (calls w) (clock w) (S (entropy w))).
Proof. reflexivity. Qed.

Lemma bind_get_item {B : Type} (k : key) (f : option item -> M B) (w : world) :
  (get_item k ≫= f) w = f (table w !! k) (log_call (GetItem k) w).
Proof. reflexivity. Qed.

(** The scans over a list of well-formed notes. *)


Lemma eq_str_true (v : json) (s : string) : eq_str v s = true <-> v = JStr s.
Proof.
  destruct v; cbn; try (split; [discriminate | discriminate]).
  rewrite String.eqb_eq. split; [intros ->; reflexivity | congruence].
Qed.

Lemma eq_str_false (v : json) (s : string) : eq_str v s = false <-> v <> JStr s.
Proof.
  rewrite <- eq_str_true. destruct (eq_str v s); split; congruence.
Qed.

Lemma without_note_absent (i : string) (ns : list item) :
  Forall has_id ns -> id_free i ns ->
  without_note i (JObj <$> ns) = inr (JObj <$> ns).
Proof.
  induction ns as [|n ns IH]; intros Hwf Hfree; [reflexivity|].
  inversion Hwf as [|? ? [v Hv] Hwf']; subst.
  inversion Hfree as [|? ? Hn Hfree']; subst.
  cbn. rewrite Hv, (IH Hwf' Hfree').
  assert (eq_str v i = false) as ->; [|reflexivity].
  apply eq_str_false. congruence.
Qed.

Lemma without_note_total (i : string) (ns : list item) :
  Forall has_id ns ->
  without_note i (JObj <$> ns) = inr (JObj <$> others i ns).
Proof.
  induction ns as [|n ns IH]; intros Hwf; [reflexivity|].
  inversion Hwf as [|? ? [v Hv] Hwf']; subst.
  cbn. rewrite Hv, (IH Hwf'). cbn.
  destruct (eq_str v i); reflexivity.
Qed.

Lemma find_note_absent (i : string) (ns : list item) :
  Forall has_id ns -> id_free i ns -> find_note i (JObj <$> ns) = inr None.
Proof.
  induction ns as [|n ns IH]; intros Hwf Hfree; [reflexivity|].
  inversion Hwf as [|? ? [v Hv] Hwf']; subst.
  inversion Hfree as [|? ? Hn Hfree']; subst.
  cbn. rewrite Hv.
  assert (eq_str v i = false) as ->; [|auto].
  apply eq_str_false. congruence.
Qed.

Lemma find_note_app (i : string) (ns : list item) (rest : list json) :
  Forall has_id ns -> id_free i ns ->
  find_note i ((JObj <$> ns) ++ rest) = find_note i rest.
Proof.
  induction ns as [|n ns IH]; intros Hwf Hfree; [reflexivity|].
  inversion Hwf as [|? ? [v Hv] Hwf']; subst.
  inversion Hfree as [|? ? Hn Hfree']; subst.
  cbn. rewrite Hv.
  assert (eq_str v i = false) as ->; [|auto].
  apply eq_str_false. congruence.
Qed.


(** Merging a body into a note: the body's keys win, the others stay. *)
Lemma merge_items_lookup_list (n : item) (l : list (string * json)) (k : string) :
  NoDup l.*1 ->
  merge_items n l !! k =
  match (list_to_map l : item) !! k with
  | Some v => Some v
  | None => n !! k
  end.
Proof.
  unfold merge_items. revert n.
  induction l as [|[a v] l IH]; intros n Hnd; [reflexivity|].
  cbn in Hnd. apply NoDup_cons in Hnd as [Ha Hnd].
  cbn. rewrite (IH _ Hnd).
  destruct (decide (a = k)) as [->|Hak].
  - rewrite lookup_insert_eq.
    rewrite (not_elem_of_list_to_map_1 (M := gmap string)) by exact Ha.
    rewrite lookup_insert_eq. reflexivity.
  - rewrite !lookup_insert_ne by exact Hak. reflexivity.
Qed.

Lemma merge_items_lookup (n b : item) (k : string) :
  merge_items n (map_to_list b) !! k =
  match b !! k with
  | Some v => Some v
  | None => n !! k
  end.
Proof.
  rewrite merge_items_lookup_list by apply NoDup_fst_map_to_list.
  rewrite list_to_map_to_list. reflexivity.
Qed.

End Running.

(** ** The dispatcher *)

Section Dispatcher.
Context `{Runtime}.

Lemma dispatch_absent (event : item) (w : world) :
  event !! "resource" = None \/ event !! "httpMethod" = None ->
  dispatch event w = (inr bad_request, w).
Proof.
  intros [Hr | Hm]; unfold dispatch.
  - rewrite Hr. reflexivity.
  - rewrite Hm. cbn [default]. rewrite orb_true_r. reflexivity.
Qed.

Lemma dispatch_sentinel (event : item) (w : world) :
  event !! "resource" = Some (JStr "UNKNOWN")
  \/ event !! "httpMethod" = Some (JStr "UNKNOWN") ->
  dispatch event w = (inr bad_request, w).
Proof.
  intros [Hr | Hm]; unfold dispatch.
  - rewrite Hr. reflexivity.
  - rewrite Hm. cbn [default]. rewrite orb_true_r. reflexivity.
Qed.

Lemma dispatch_routed (event : item) (p m : string) (op : operation) (w : world) :
  event !! "resource" = Some (JStr p) ->
  event !! "httpMethod" = Some (JStr m) ->
  In (p, m, op) routing_table ->
  dispatch event w = handler op event w.
Proof.
  intros Hr Hm Hin. unfold dispatch. rewrite Hr, Hm. cbn [default].
  cbn in Hin.
  repeat (destruct Hin as [Hin | Hin]; [injection Hin as <- <- <-; reflexivity|]).
  destruct Hin.
Qed.

Lemma dispatch_unrouted (event : item) (r m : json) (w : world) :
  event !! "resource" = Some r ->
  event !! "httpMethod" = Some m ->
  r <> JStr "UNKNOWN" -> m <> JStr "UNKNOWN" ->
  unrouted r m ->
  dispatch event w = (inr not_allowed, w).
Proof.
  intros Hr Hm Hru Hmu Hun. unfold dispatch. rewrite Hr, Hm. cbn [default from_option id]. cbv zeta.
  apply eq_str_false in Hru, Hmu. rewrite Hru, Hmu. cbn [orb].
  assert (forall p mm op, In (p, mm, op) routing_table ->
            eq_str r p && eq_str m mm = false) as Hno.
  { intros p mm op Hin. apply andb_false_iff.
    destruct (eq_str r p) eqn:Hp; [|auto]. right.
    destruct (eq_str m mm) eqn:Hmm; [|auto].
    apply eq_str_true in Hp, Hmm. destruct (Hun p mm op Hin). auto. }
  rewrite (Hno "/patients" "POST" CreatePatient) by (cbn; tauto).
  rewrite (Hno "/patients/{id}" "GET" GetPatient) by (cbn; tauto).
  rewrite (Hno "/patients/{id}" "PUT" UpdatePatient) by (cbn; tauto).
  rewrite (Hno "/patients/{id}" "DELETE" DeletePatient) by (cbn; tauto).
  rewrite (Hno "/patients/{id}/notes" "POST" AddNote) by (cbn; tauto).
  rewrite (Hno "/patients/{id}/notes" "GET" ListNotes) by (cbn; tauto).
  rewrite (Hno "/patients/{id}/notes/{noteId}" "GET" GetNote) by (cbn; tauto).
  rewrite (Hno "/patients/{id}/notes/{noteId}" "PUT" UpdateNote) by (cbn; tauto).
  rewrite (Hno "/patients/{id}/notes/{noteId}" "DELETE" DeleteNote) by (cbn; tauto).
  reflexivity.
Qed.

(** No two rows of the table share their [(path, method)] pair. *)
Lemma routing_table_functional (p m : string) (op op' : operation) :
  In (p, m, op) routing_table -> In (p, m, op') routing_table -> op = op'.
Proof.
  cbn. intros Hin Hin'.
  repeat (destruct Hin as [Hin | Hin]; [injection Hin as <- <- <-|]);
    try (destruct Hin);
    repeat (destruct Hin' as [Hin' | Hin']; [try discriminate Hin'; injection Hin' as <-; reflexivity|]);
    destruct Hin'.
Qed.

End Dispatcher.

(** C2, as amended: if the resource path template or the HTTP method is absent
    from the event, the handler answers 400 and the world is as it was (no
    operation handler has run); if both are present, neither is the literal
    string UNKNOWN, and the pair is no row of the routing table, it answers
    405 Method Not Allowed; if the pair is a row of the table, the handler of
    that row, and of no other row, is run (its exceptions turned into 500s). *)
Theorem lambda_handler_routing `{Runtime} (event : item) (w : world) :
  (event !! "resource" = None \/ event !! "httpMethod" = None ->
     lambda_handler event w = (bad_request, w))
  /\ (forall r m : json,
        event !! "resource" = Some r -> event !! "httpMethod" = Some m ->
        r <> JStr "UNKNOWN" -> m <> JStr "UNKNOWN" -> unrouted r m ->
        lambda_handler event w = (not_allowed, w))
  /\ (forall (p m : string) (op : operation),
        event !! "resource" = Some (JStr p) ->
        event !! "httpMethod" = Some (JStr m) ->
        In (p, m, op) routing_table ->
        lambda_handler event w = recover (handler op event w)
        /\ forall op', In (p, m, op') routing_table -> op' = op).
Proof.
  unfold lambda_handler. split; [|split].
  - intros Habs. rewrite (dispatch_absent _ _ Habs). reflexivity.
  - intros r m Hr Hm Hru Hmu Hun.
    rewrite (dispatch_unrouted _ _ _ _ Hr Hm Hru Hmu Hun). reflexivity.
  - intros p m op Hr Hm Hin. split.
    + rewrite (dispatch_routed _ _ _ _ _ Hr Hm Hin). reflexivity.
    + intros op' Hin'. exact (routing_table_functional _ _ _ _ Hin' Hin).
Qed.

Lemma unrouted_put_patients : unrouted (JStr "/patients") (JStr "PUT").
Proof.
  intros p m op Hin [Hp Hm]. injection Hp as <-. injection Hm as <-.
  cbn in Hin. repeat (destruct Hin as [Hin | Hin]; [discriminate Hin|]).
  destruct Hin.
Qed.

Lemma lambda_handler_routing_witness :
  lambda_handler (delete "httpMethod" Demo.get_p1) Demo.w0 = (bad_request, Demo.w0)
  /\ lambda_handler (Demo.request "/patients" "PUT" [] None) Demo.w0
     = (not_allowed, Demo.w0)
  /\ lambda_handler Demo.get_p1 Demo.w0 = recover (handler GetPatient Demo.get_p1 Demo.w0).
Proof.
  split; [|split].
  - apply (lambda_handler_routing (delete "httpMethod" Demo.get_p1) Demo.w0).
    right. reflexivity.
  - apply (proj1 (proj2 (lambda_handler_routing
                           (Demo.request "/patients" "PUT" [] None) Demo.w0))
             (JStr "/patients") (JStr "PUT")).
    + reflexivity.
    + reflexivity.
    + discriminate.
    + discriminate.
    + exact unrouted_put_patients.
  - apply (proj2 (proj2 (lambda_handler_routing Demo.get_p1 Demo.w0))
             "/patients/{id}" "GET" GetPatient).
    + reflexivity.
    + reflexivity.
    + cbn. tauto.
Defined.

Lemma unrouted_sentinel : unrouted (JStr "UNKNOWN") (JStr "GET").
Proof.
  intros p m op Hin [Hp Hm]. injection Hp as <-. injection Hm as <-.
  cbn in Hin. repeat (destruct Hin as [Hin | Hin]; [discriminate Hin|]).
  destruct Hin.
Qed.

(** C2, as stated, fails: in this event the resource and the method are both
    present and the pair is no row of the routing table, yet the answer is
    400 and not 405. *)
Lemma routing_sentinel_counterexample :
  let event := Demo.request "UNKNOWN" "GET" [] None in
  event !! "resource" = Some (JStr "UNKNOWN")
  /\ event !! "httpMethod" = Some (JStr "GET")
  /\ unrouted (JStr "UNKNOWN") (JStr "GET")
  /\ statusCode (lambda_handler event Demo.w0).1 = 400
  /\ (lambda_handler event Demo.w0).1 <> not_allowed.
Proof.
  cbv zeta. split; [reflexivity|]. split; [reflexivity|].
  split; [exact unrouted_sentinel|]. split; [reflexivity|].
  vm_compute. discriminate.
Qed.

(** C10: an event whose resource, or whose httpMethod, is the literal string
    UNKNOWN is answered 400 with the message for a missing field, not 405,
    and the answer is the one the same event gets with that field removed. *)
Theorem sentinel_is_bad_request `{Runtime} (event : item) (w : world) :
  event !! "resource" = Some (JStr "UNKNOWN")
  \/ event !! "httpMethod" = Some (JStr "UNKNOWN") ->
  lambda_handler event w
    = (response_with_cors 400 (JStr "Invalid request. Resource or method not found."), w)
  /\ statusCode (lambda_handler event w).1 = 400
  /\ statusCode (lambda_handler event w).1 <> 405
  /\ (event !! "resource" = Some (JStr "UNKNOWN") ->
      lambda_handler (delete "resource" event) w = lambda_handler event w)
  /\ (event !! "httpMethod" = Some (JStr "UNKNOWN") ->
      lambda_handler (delete "httpMethod" event) w = lambda_handler event w).
Proof.
  intros Hs. unfold lambda_handler.
  rewrite (dispatch_sentinel _ _ Hs). cbn.
  split; [reflexivity|]. split; [reflexivity|]. split; [discriminate|].
  split; intros _.
  - rewrite dispatch_absent; [reflexivity|]. left. apply lookup_delete_eq.
  - rewrite dispatch_absent; [reflexivity|]. right. apply lookup_delete_eq.
Qed.

Lemma sentinel_is_bad_request_witness :
  statusCode (lambda_handler (Demo.request "/patients" "UNKNOWN" [] None) Demo.w0).1 = 400.
Proof.
  apply (sentinel_is_bad_request (Demo.request "/patients" "UNKNOWN" [] None) Demo.w0).
  right. reflexivity.
Defined.

(** ** Patient operations *)

(** C7: for every patient id, two delete-patient calls in a row both answer
    204 (with a null body), and a get-patient for that id afterwards answers
    404. *)
Theorem delete_patient_idempotent `{Runtime}
    (d1 d2 g : item) (pid : string) (w : world) :
  path_param d1 "id" pid -> path_param d2 "id" pid -> path_param g "id" pid ->
  let r1 := delete_patient d1 w in
  let r2 := delete_patient d2 r1.2 in
  let r3 := get_patient g r2.2 in
  r1.1 = inr (response_with_cors 204 JNull)
  /\ r2.1 = inr (response_with_cors 204 JNull)
  /\ table r2.2 = table r1.2
  /\ r3.1 = inr (response_with_cors 404 (JStr "Patient not found")).
Proof.
  intros H1 H2 Hg. cbv zeta. unfold delete_patient, get_patient.
  rewrite !bind_run, (path_parameter_run _ _ _ _ H1). cbn.
  rewrite !bind_run, (path_parameter_run _ _ _ _ H2). cbn.
  rewrite !bind_run, (path_parameter_run _ _ _ _ Hg). cbn.
  rewrite bind_run. unfold get_item. cbn [table set_table log_call].
  rewrite delete_delete_eq, lookup_delete_eq. auto.
Qed.

Lemma path_param_p1 (method : string) (text : option string) :
  path_param (Demo.request "/patients/{id}" method [("id", "p1")] text) "id" "p1".
Proof.
  exists {[ "id" := JStr "p1" ]}, "p1". destruct text; repeat split; reflexivity.
Qed.

Lemma delete_patient_idempotent_witness :
  statusCode (lambda_handler Demo.delete_p1 Demo.w_created).1 = 204
  /\ (get_patient Demo.get_p1
        (delete_patient Demo.delete_p1
           (delete_patient Demo.delete_p1 Demo.w_created).2).2).1
     = inr (response_with_cors 404 (JStr "Patient not found")).
Proof.
  split; [reflexivity|].
  apply (delete_patient_idempotent Demo.delete_p1 Demo.delete_p1 Demo.get_p1
           "p1" Demo.w_created); apply path_param_p1.
Defined.

(** C1, as amended: for a patient that was created by the create operation
    and has had no note added, list-notes answers 200 with the empty list,
    because create stores an empty notes attribute.  404 with the message
    No notes found for this patient is the answer when the row is absent or
    has no notes attribute. *)
Theorem list_notes_after_create `{Runtime}
    (c l : item) (b : item) (pid : string) (w : world) :
  body_is c (JObj b) ->
  b !! "id" = Some (JStr pid) ->
  Forall (fun f => is_Some (b !! f)) patient_fields ->
  path_param l "id" pid ->
  (exists (patient : item) (w1 : world),
     create_patient c w = (inr (response_with_cors 201 (JObj patient)), w1)
     /\ table w1 !! patient_key pid = Some patient
     /\ patient !! "notes" = Some (JList [])
     /\ (get_all_notes_for_patient l w1).1 = inr (response_with_cors 200 (JList [])))
  /\ (forall w' : world,
        table w' !! patient_key pid = None
        \/ (exists row : item,
              table w' !! patient_key pid = Some row /\ row !! "notes" = None) ->
        (get_all_notes_for_patient l w').1
        = inr (response_with_cors 404 (JStr "No notes found for this patient"))).
Proof.
  intros Hbody Hid Hfields Hl. split.
  - unfold patient_fields in Hfields.
    repeat (apply Forall_cons in Hfields as [[? ?] Hfields]).
    unfold create_patient.
    rewrite (bind_request_body _ _ _ _ Hbody).
    rewrite (bind_subscript _ _ _ _ _ Hid).
    do 8 (erewrite bind_subscript by eassumption).
    rewrite !bind_now, bind_run.
    unfold put_item, item_key.
    match goal with
    | |- context [PutItem ?fs] => set (patient := fs)
    end.
    assert (patient !! "id" = Some (JStr pid)) as -> by reflexivity.
    assert (patient !! "type" = Some (JStr "Patient")) as -> by reflexivity.
    cbv iota beta zeta.
    exists patient. eexists. split; [reflexivity|].
    cbn [table set_table log_call]. unfold patient_key.
    split; [apply lookup_insert_eq|]. split; [reflexivity|].
    unfold get_all_notes_for_patient.
    rewrite (bind_path_parameter _ _ _ _ _ Hl), bind_get_item.
    cbn [table set_table log_call].
    unfold patient_key. rewrite lookup_insert_eq. reflexivity.
  - intros w' Hw'. unfold get_all_notes_for_patient.
    rewrite (bind_path_parameter _ _ _ _ _ Hl), bind_get_item.
    destruct Hw' as [-> | (row & -> & Hrow)]; [reflexivity|].
    rewrite Hrow. reflexivity.
Qed.

Lemma list_notes_after_create_witness :
  (get_all_notes_for_patient Demo.list_notes_p1 Demo.w_created).1
  = inr (response_with_cors 200 (JList [])).
Proof.
  destruct (list_notes_after_create Demo.post_patient Demo.list_notes_p1
              Demo.create_json "p1" Demo.w0) as [(patient & w1 & Hrun & _ & _ & Hlist) _].
  - exists Demo.create_text. split; reflexivity.
  - reflexivity.
  - repeat constructor; eexists; reflexivity.
  - exists {[ "id" := JStr "p1" ]}, "p1". repeat split; reflexivity.
  - unfold Demo.w_created. rewrite Hrun. exact Hlist.
Defined.

(** C1, as stated, fails: the patient p1 is created by the create operation
    (a single put is all the store has seen), no note is ever added, and
    list-notes answers 200 with the empty list, not 404. *)
Lemma list_notes_after_create_counterexample :
  statusCode (lambda_handler Demo.post_patient Demo.w0).1 = 201
  /\ (lambda_handler Demo.post_patient Demo.w0).2 = Demo.w_created
  /\ List.length (calls Demo.w_created) = 1%nat
  /\ (lambda_handler Demo.list_notes_p1 Demo.w_created).1
     = response_with_cors 200 (JList [])
  /\ statusCode (lambda_handler Demo.list_notes_p1 Demo.w_created).1 <> 404
  /\ (lambda_handler Demo.list_notes_p1 Demo.w_created).1
     <> response_with_cors 404 (JStr "No notes found for this patient").
Proof.
  split; [reflexivity|]. split; [reflexivity|]. split; [reflexivity|].
  split; [reflexivity|]. split; vm_compute; discriminate.
Qed.



(** ** Note operations *)

Section Notes.
Context `{Runtime}.



End Notes.

(** C5: for every add-note request whose body lacks the author field or the
    content field, the answer is 400 with the Missing required fields
    message, and no call is issued to the store: the table, and with it the
    patient's row and its notes, is as it was. *)
Theorem add_note_missing_field `{Runtime}
    (event b : item) (pid : string) (w : world) :
  path_param event "id" pid ->
  body_is event (JObj b) ->
  b !! "author" = None \/ b !! "content" = None ->
  exists w' : world,
    add_note_to_patient event w
    = (inr (response_with_cors 400
              (JStr "Missing required fields: author and content are required.")), w')
    /\ table w' = table w
    /\ calls w' = calls w.
Proof.
  intros Hp Hbody Hmiss.
  unfold add_note_to_patient.
  rewrite (bind_path_parameter _ _ _ _ _ Hp), (bind_request_body _ _ _ _ Hbody).
  rewrite bind_fresh_uuid.
  assert (negb (bool_decide (is_Some (b !! "author")))
          || negb (bool_decide (is_Some (b !! "content"))) = true) as ->.
  { apply orb_true_iff. destruct Hmiss as [-> | ->]; [left | right];
      rewrite bool_decide_eq_false_2; auto using is_Some_None. }
  eexists. split; [reflexivity|]. split; reflexivity.
Qed.

Lemma add_note_missing_field_witness :
  exists w' : world,
    add_note_to_patient Demo.post_no_author Demo.w_created
    = (inr (response_with_cors 400
              (JStr "Missing required fields: author and content are required.")), w')
    /\ table w' = table Demo.w_created
    /\ calls w' = calls Demo.w_created.
Proof.
  apply (add_note_missing_field Demo.post_no_author Demo.no_author_json "p1").
  - exists {[ "id" := JStr "p1" ]}, "p1". repeat split; reflexivity.
  - exists Demo.no_author_text. split; reflexivity.
  - left. reflexivity.
Defined.




Section NoteLookups.
Context `{Runtime}.

Lemma truthy_note (n : item) : has_id n -> truthy (JObj n) = true.
Proof.
  intros [v Hv]. cbn. rewrite bool_decide_eq_false_2; [reflexivity|].
  intros ->. rewrite lookup_empty in Hv. discriminate.
Qed.


(** get-note on a row whose notes are known. *)
Lemma get_note_run (g : item) (pid i : string) (row : item) (l : list json) (w : world) :
  path_param g "id" pid -> path_param g "noteId" i ->
  table w !! patient_key pid = Some row ->
  row !! "notes" = Some (JList l) ->
  (get_note g w).1 =
  match find_note i l with
  | inl e => inl e
  | inr (Some n) =>
      inr (if truthy n then response_with_cors 200 n
           else response_with_cors 404 (JStr "Note not found"))
  | inr None => inr (response_with_cors 404 (JStr "Note not found"))
  end.
Proof.
  intros Hp Hi Hrow Hnotes. unfold get_note.
  rewrite (bind_path_parameter _ _ _ _ _ Hp), (bind_path_parameter _ _ _ _ _ Hi).
  rewrite bind_get_item, Hrow, Hnotes. cbn [py_iter]. rewrite bind_lift.
  rewrite bind_run. unfold lift.
  destruct (find_note i l) as [e | [n|]]; [reflexivity| |reflexivity].
  destruct (truthy n); reflexivity.
Qed.

End NoteLookups.


Lemma path_param_note (method nid : string) (text : option string) (name : string) :
  name = "id" \/ name = "noteId" ->
  path_param (Demo.note_request method nid text) name
    (if String.eqb name "id" then "p1" else nid).
Proof.
  intros Hname.
  exists (<["id" := JStr "p1"]> (<["noteId" := JStr nid]> ∅)),
         (if String.eqb name "id" then "p1" else nid).
  split; [destruct text; reflexivity|].
  split; [|reflexivity].
  destruct Hname as [-> | ->]; reflexivity.
Qed.


Section NoteWrites.
Context `{Runtime}.


(** Writing a whole notes list back. *)
Lemma write_notes_run (pid : string) (row : item) (l : list json) (w : world) :
  table w !! patient_key pid = Some row ->
  update_item (patient_key pid) [("notes", Placeholder ":notes")]
    (<[":notes" := JList l]> ∅) w
  = (inr (<["notes" := JList l]> row),
     set_table (<[patient_key pid := <["notes" := JList l]> row]> (table w))
       (log_call (UpdateItem (patient_key pid) [("notes", Placeholder ":notes")]
                    (<[":notes" := JList l]> ∅)) w)).
Proof.
  intros Hrow. unfold update_item. rewrite Hrow.
  cbn [default from_option id apply_set eval_operand].
  rewrite lookup_insert_eq. reflexivity.
Qed.

End NoteWrites.


Lemma two_notes_well_formed : Forall has_id Demo.two_notes.
Proof. repeat constructor; eexists; vm_compute; reflexivity. Qed.




(** ** What every operation keeps *)

Section Effects.
Context `{Runtime}.
Variable R : world -> world -> Prop.
Hypothesis R_refl : forall w, R w w.
Hypothesis R_trans : forall w1 w2 w3, R w1 w2 -> R w2 w3 -> R w1 w3.
Hypothesis R_clock :
  forall w, R w (World (table w) (calls w) (S (clock w)) (entropy w)).
Hypothesis R_entropy :
  forall w, R w (World (table w) (calls w) (clock w) (S (entropy w))).

Lemma respects_ret {A : Type} (a : A) : respects R (mret a).
Proof. intros w r w' Hrun. injection Hrun as _ <-. apply R_refl. Qed.

Lemma respects_lift {A : Type} (x : exn + A) : respects R (lift x).
Proof. intros w r w' Hrun. injection Hrun as _ <-. apply R_refl. Qed.

Lemma respects_raise {A : Type} (e : exn) : respects R (@raise A e).
Proof. intros w r w' Hrun. injection Hrun as _ <-. apply R_refl. Qed.

Lemma respects_bind {A B : Type} (c : M A) (f : A -> M B) :
  respects R c -> (forall a, respects R (f a)) -> respects R (c ≫= f).
Proof.
  intros Hc Hf w r w' Hrun. rewrite bind_run in Hrun.
  destruct (c w) as [[e | a] w1] eqn:Hcw.
  - injection Hrun as _ <-. exact (Hc _ _ _ Hcw).
  - exact (R_trans _ _ _ (Hc _ _ _ Hcw) (Hf a _ _ _ Hrun)).
Qed.

Lemma respects_except {A : Type} (c : M A) (h : string -> M A) :
  respects R c -> (forall msg, respects R (h msg)) ->
  respects R (except_ClientError c h).
Proof.
  intros Hc Hh w r w' Hrun. unfold except_ClientError in Hrun.
  destruct (c w) as [[e | a] w1] eqn:Hcw.
  - destruct e; try (injection Hrun as _ <-; exact (Hc _ _ _ Hcw)).
    exact (R_trans _ _ _ (Hc _ _ _ Hcw) (Hh _ _ _ _ Hrun)).
  - injection Hrun as _ <-. exact (Hc _ _ _ Hcw).
Qed.

Lemma respects_now : respects R now.
Proof. intros w r w' Hrun. injection Hrun as _ <-. apply R_clock. Qed.

Lemma respects_fresh_uuid : respects R fresh_uuid.
Proof. intros w r w' Hrun. injection Hrun as _ <-. apply R_entropy. Qed.

Lemma respects_path_parameter (event : item) (name : string) :
  respects R (path_parameter event name).
Proof.
  unfold path_parameter.
  repeat (apply respects_bind; [|intros ?]); apply respects_lift.
Qed.

Lemma respects_request_body (event : item) : respects R (request_body event).
Proof.
  unfold request_body.
  repeat (apply respects_bind; [|intros ?]); apply respects_lift.
Qed.

End Effects.

Section Yields.
Context `{Runtime}.
Variable P : response -> Prop.

Lemma yields_ret (r : response) : P r -> yields P (mret r).
Proof. intros HP w r' w' Hrun. injection Hrun as <- _. exact HP. Qed.

Lemma yields_raise (e : exn) : yields P (raise e).
Proof. intros w r w' Hrun. discriminate Hrun. Qed.

Lemma yields_bind {A : Type} (c : M A) (f : A -> M response) :
  (forall a, yields P (f a)) -> yields P (c ≫= f).
Proof.
  intros Hf w r w' Hrun. rewrite bind_run in Hrun.
  destruct (c w) as [[e | a] w1]; [discriminate Hrun|].
  exact (Hf a _ _ _ Hrun).
Qed.

Lemma yields_except (c : M response) (h : string -> M response) :
  yields P c -> (forall msg, yields P (h msg)) -> yields P (except_ClientError c h).
Proof.
  intros Hc Hh w r w' Hrun. unfold except_ClientError in Hrun.
  destruct (c w) as [[e | a] w1] eqn:Hcw.
  - destruct e; try discriminate Hrun. exact (Hh _ _ _ _ Hrun).
  - injection Hrun as <- <-. exact (Hc _ _ _ Hcw).
Qed.

End Yields.

Ltac yields_steps :=
  repeat first
    [ apply yields_bind; intros ?
    | apply yields_raise
    | apply yields_except; [|intros ?]
    | apply yields_ret
    | match goal with
      | |- yields _ (match ?x with _ => _ end) => destruct x
      | |- yields _ (if ?b then _ else _) => destruct b
      end ].

Section Responses.
Context `{Runtime}.

Lemma response_with_cors_well_formed (s : Z) (payload : json) :
  In s status_codes -> well_formed_response (response_with_cors s payload).
Proof. intros Hs. split; [reflexivity | exact Hs]. Qed.

Lemma handler_yields_well_formed (op : operation) (event : item) :
  yields well_formed_response (handler op event).
Proof.
  destruct op; cbn [handler];
    unfold create_patient, get_patient, update_patient, delete_patient,
      add_note_to_patient, get_all_notes_for_patient, get_note, update_note,
      delete_note;
    cbv zeta; yields_steps;
    apply response_with_cors_well_formed; cbn; tauto.
Qed.

Lemma dispatch_yields_well_formed (event : item) :
  yields well_formed_response (dispatch event).
Proof.
  unfold dispatch. cbv zeta.
  repeat match goal with
         | |- yields _ (if ?b then _ else _) => destruct b
         end;
    first [ apply (handler_yields_well_formed CreatePatient)
          | apply (handler_yields_well_formed GetPatient)
          | apply (handler_yields_well_formed UpdatePatient)
          | apply (handler_yields_well_formed DeletePatient)
          | apply (handler_yields_well_formed AddNote)
          | apply (handler_yields_well_formed ListNotes)
          | apply (handler_yields_well_formed GetNote)
          | apply (handler_yields_well_formed UpdateNote)
          | apply (handler_yields_well_formed DeleteNote)
          | apply yields_ret; apply response_with_cors_well_formed; cbn; tauto ].
Qed.

End Responses.

(** X1: whatever the event and whatever the table holds, the handler returns
    a response (no exception gets past it) that carries the three CORS
    headers and one of the status codes 200, 201, 204, 400, 404, 405, 500. *)
Theorem lambda_handler_response_shape `{Runtime} (event : item) (w : world) :
  headers (lambda_handler event w).1 = cors_headers
  /\ In (statusCode (lambda_handler event w).1) [200; 201; 204; 400; 404; 405; 500].
Proof.
  unfold lambda_handler.
  destruct (dispatch event w) as [[e | r] w'] eqn:Hrun.
  - destruct e; cbn; tauto.
  - exact (dispatch_yields_well_formed event _ _ _ Hrun).
Qed.

Ltac respects_steps Hrefl Htrans Hclock Hentropy :=
  repeat first
    [ apply (respects_bind _ Htrans); [|intros ?]
    | apply (respects_except _ Htrans); [|intros ?]
    | apply (respects_ret _ Hrefl)
    | apply (respects_lift _ Hrefl)
    | apply (respects_raise _ Hrefl)
    | apply (respects_now _ Hclock)
    | apply (respects_fresh_uuid _ Hentropy)
    | apply (respects_path_parameter _ Hrefl Htrans)
    | apply (respects_request_body _ Hrefl Htrans)
    | match goal with
      | |- respects _ (match ?x with _ => _ end) => destruct x
      | |- respects _ (if ?b then _ else _) => destruct b
      end ].

Section ReadOnly.
Context `{Runtime}.

Lemma only_read_refl (w : world) : only_read w w.
Proof. split; [reflexivity|]. exists []. split; [reflexivity | constructor]. Qed.

Lemma only_read_trans (w1 w2 w3 : world) :
  only_read w1 w2 -> only_read w2 w3 -> only_read w1 w3.
Proof.
  intros [Ht1 (l1 & Hc1 & Hg1)] [Ht2 (l2 & Hc2 & Hg2)].
  split; [congruence|]. exists (l2 ++ l1)%list.
  split; [rewrite Hc2, Hc1; apply app_assoc | apply Forall_app; auto].
Qed.

Lemma only_read_clock (w : world) :
  only_read w (World (table w) (calls w) (S (clock w)) (entropy w)).
Proof. split; [reflexivity|]. exists []. split; [reflexivity | constructor]. Qed.

Lemma only_read_entropy (w : world) :
  only_read w (World (table w) (calls w) (clock w) (S (entropy w))).
Proof. split; [reflexivity|]. exists []. split; [reflexivity | constructor]. Qed.

Lemma get_item_only_read (k : key) : respects only_read (get_item k).
Proof.
  intros w r w' Hrun. injection Hrun as _ <-.
  split; [reflexivity|]. exists [GetItem k].
  split; [reflexivity | repeat constructor].
Qed.

End ReadOnly.

(** X2: get-patient, list-notes and get-note never write.  For every event
    and every table, also when the operation raises, the table afterwards
    is the table before and the only calls the store has seen are reads. *)
Theorem read_operations_only_read `{Runtime}
    (op : operation) (event : item) (w : world) :
  op = GetPatient \/ op = ListNotes \/ op = GetNote ->
  table (handler op event w).2 = table w
  /\ exists l : list store_call,
       calls (handler op event w).2 = (l ++ calls w)%list
       /\ Forall (fun c => exists k, c = GetItem k) l.
Proof.
  intros Hop.
  assert (respects only_read (handler op event)) as Hresp.
  { destruct Hop as [-> | [-> | ->]]; cbn [handler];
      unfold get_patient, get_all_notes_for_patient, get_note;
      respects_steps only_read_refl only_read_trans only_read_clock only_read_entropy;
      apply get_item_only_read. }
  destruct (handler op event w) as [r w'] eqn:Hrun.
  destruct (Hresp _ _ _ Hrun) as [Ht (l & Hc & Hl)].
  split; [exact Ht|]. exists l. split; [exact Hc|].
  eapply Forall_impl; [exact Hl|]. intros [k| | |] Hk; try destruct Hk. eauto.
Qed.

Lemma read_operations_only_read_witness :
  table (get_note (Demo.note_request "GET" "n1" None) Demo.w_two_notes).2
  = table Demo.w_two_notes.
Proof.
  apply (read_operations_only_read GetNote
           (Demo.note_request "GET" "n1" None) Demo.w_two_notes).
  right. right. reflexivity.
Defined.

Section OneRow.
Context `{Runtime}.
Variable k : key.

Lemma same_elsewhere_refl (w : world) : same_elsewhere k w w.
Proof. intros k' _. reflexivity. Qed.

Lemma same_elsewhere_trans (w1 w2 w3 : world) :
  same_elsewhere k w1 w2 -> same_elsewhere k w2 w3 -> same_elsewhere k w1 w3.
Proof. intros H12 H23 k' Hk'. rewrite (H23 k' Hk'). exact (H12 k' Hk'). Qed.

Lemma same_elsewhere_clock (w : world) :
  same_elsewhere k w (World (table w) (calls w) (S (clock w)) (entropy w)).
Proof. intros k' _. reflexivity. Qed.

Lemma same_elsewhere_entropy (w : world) :
  same_elsewhere k w (World (table w) (calls w) (clock w) (S (entropy w))).
Proof. intros k' _. reflexivity. Qed.

Lemma get_item_same_elsewhere (k0 : key) : respects (same_elsewhere k) (get_item k0).
Proof. intros w r w' Hrun. injection Hrun as _ <-. intros k' _. reflexivity. Qed.

Lemma delete_item_same_elsewhere : respects (same_elsewhere k) (delete_item k).
Proof.
  intros w r w' Hrun. injection Hrun as _ <-. intros k' Hk'.
  cbn [table set_table log_call]. apply lookup_delete_ne. congruence.
Qed.

Lemma update_item_same_elsewhere (e : update_expression) (vals : item) :
  respects (same_elsewhere k) (update_item k e vals).
Proof.
  intros w r w' Hrun. unfold update_item in Hrun.
  destruct (apply_set _ _ _ _); injection Hrun as _ <-; intros k' Hk';
    cbn [table set_table log_call]; [|reflexivity].
  apply lookup_insert_ne. congruence.
Qed.

Lemma put_item_same_elsewhere (it : item) :
  item_key it = Some k \/ item_key it = None ->
  respects (same_elsewhere k) (put_item it).
Proof.
  intros Hkey w r w' Hrun. unfold put_item in Hrun.
  destruct Hkey as [Hkey | Hkey]; rewrite Hkey in Hrun;
    injection Hrun as _ <-; intros k' Hk'; cbn [table set_table log_call];
    [|reflexivity].
  apply lookup_insert_ne. congruence.
Qed.

Lemma respects_bind_path_parameter {B : Type} (R : world -> world -> Prop)
    (event : item) (name value : string) (f : string -> M B) :
  path_param event name value ->
  respects R (f value) -> respects R (path_parameter event name ≫= f).
Proof.
  intros Hp Hf w r w' Hrun. rewrite (bind_path_parameter _ _ _ _ _ Hp) in Hrun.
  exact (Hf _ _ _ Hrun).
Qed.

End OneRow.

(** X3: an operation on the patient [pid] (every operation but create, given
    the path parameter id) changes no row but the one of [pid], whatever the
    rest of the request and whatever it answers. *)
Theorem operations_touch_one_row `{Runtime}
    (op : operation) (event : item) (pid : string) (w : world) :
  op <> CreatePatient ->
  path_param event "id" pid ->
  forall k : key, k <> (pid, "Patient") ->
    table (handler op event w).2 !! k = table w !! k.
Proof.
  intros Hop Hp.
  assert (respects (same_elsewhere (pid, "Patient")) (handler op event)) as Hresp.
  { destruct op; [congruence| | | | | | | |]; cbn [handler];
      unfold get_patient, update_patient, delete_patient, add_note_to_patient,
        get_all_notes_for_patient, get_note, update_note, delete_note;
      apply (respects_bind_path_parameter _ _ _ _ _ Hp); cbv zeta;
      respects_steps (same_elsewhere_refl (pid, "Patient"))
                     (same_elsewhere_trans (pid, "Patient"))
                     (same_elsewhere_clock (pid, "Patient"))
                     (same_elsewhere_entropy (pid, "Patient"));
      first [ apply get_item_same_elsewhere
            | apply delete_item_same_elsewhere
            | apply update_item_same_elsewhere ]. }
  destruct (handler op event w) as [r w'] eqn:Hrun.
  exact (Hresp _ _ _ Hrun).
Qed.

Lemma operations_touch_one_row_witness :
  let w := set_table (<[("p2", "Patient") := Demo.created_row]> (table Demo.w_two_notes))
             Demo.w_two_notes in
  table (delete_patient Demo.delete_p1 w).2 !! ("p2", "Patient")
  = Some Demo.created_row.
Proof.
  cbv zeta. change delete_patient with (handler DeletePatient).
  rewrite (operations_touch_one_row DeletePatient Demo.delete_p1 "p1").
  - apply lookup_insert_eq.
  - discriminate.
  - apply path_param_p1.
  - discriminate.
Defined.

(** X4: create, given a body with the nine fields and a string id, answers
    201 with the row it has written, and get-patient for that id returns that
    very row.  The row holds the nine fields as the body gave them, type
    Patient, an empty notes list and two consecutive clock readings as
    createdAt and updatedAt, and nothing else: other keys of the body are
    dropped and nothing of an earlier row of that id survives.  The other rows
    of the table stay as they were. *)
Theorem create_then_get `{Runtime}
    (c g b : item) (pid : string) (w : world) :
  body_is c (JObj b) ->
  b !! "id" = Some (JStr pid) ->
  Forall (fun f => is_Some (b !! f)) patient_fields ->
  path_param g "id" pid ->
  exists (patient : item) (w1 w2 : world),
    create_patient c w = (inr (response_with_cors 201 (JObj patient)), w1)
    /\ get_patient g w1 = (inr (response_with_cors 200 (JObj patient)), w2)
    /\ (forall f, In f patient_fields -> patient !! f = b !! f)
    /\ patient !! "type" = Some (JStr "Patient")
    /\ patient !! "notes" = Some (JList [])
    /\ patient !! "createdAt" = Some (JStr (isoformat_now (clock w)))
    /\ patient !! "updatedAt" = Some (JStr (isoformat_now (S (clock w))))
    /\ (forall a, ~ In a row_attributes -> patient !! a = None)
    /\ (forall k : key, k <> (pid, "Patient") -> table w1 !! k = table w !! k).
Proof.
  intros Hbody Hid Hfields Hg.
  unfold patient_fields in Hfields.
  repeat (apply Forall_cons in Hfields as [[? ?] Hfields]).
  unfold create_patient.
  rewrite (bind_request_body _ _ _ _ Hbody).
  rewrite (bind_subscript _ _ _ _ _ Hid).
  do 8 (erewrite bind_subscript by eassumption).
  rewrite !bind_now, bind_run.
  unfold put_item, item_key.
  match goal with
  | |- context [PutItem ?fs] => set (patient := fs)
  end.
  assert (patient !! "id" = Some (JStr pid)) as -> by reflexivity.
  assert (patient !! "type" = Some (JStr "Patient")) as -> by reflexivity.
  cbv iota beta zeta.
  exists patient. do 2 eexists. split; [reflexivity|].
  split.
  { unfold get_patient.
    rewrite (bind_path_parameter _ _ _ _ _ Hg), bind_get_item.
    cbn [table set_table log_call]. unfold patient_key.
    rewrite lookup_insert_eq. reflexivity. }
  split.
  { intros f Hf. cbn in Hf.
    repeat (destruct Hf as [<- | Hf];
            [first [ rewrite Hid; reflexivity
                   | match goal with
                     | Hb : b !! _ = Some _ |- _ => rewrite Hb; reflexivity
                     end ]|]).
    destruct Hf. }
  split; [reflexivity|]. split; [reflexivity|].
  split; [reflexivity|]. split; [reflexivity|].
  split.
  { intros a Ha. apply (not_elem_of_list_to_map_1 (M := gmap string)).
    intros Hin. apply Ha. apply list_elem_of_In in Hin.
    cbn in Hin. cbn. tauto. }
  intros k Hk. cbn [table set_table log_call].
  apply lookup_insert_ne. congruence.
Qed.

Lemma create_then_get_witness :
  exists patient : item,
    (get_patient Demo.get_p1 Demo.w_created).1
    = inr (response_with_cors 200 (JObj patient))
    /\ patient !! "email" = Some (JStr "a@a.com")
    /\ patient !! "createdAt" = Some (JStr "2024-03-01T09:00:00.000100")
    /\ patient !! "updatedAt" = Some (JStr "2024-03-01T09:00:00.000104").
Proof.
  destruct (create_then_get Demo.post_patient Demo.get_p1 Demo.create_json "p1" Demo.w0)
    as (patient & w1 & w2 & Hrun & Hget & Hf & _ & _ & Hc & Hu & _).
  - exists Demo.create_text. split; reflexivity.
  - reflexivity.
  - repeat constructor; eexists; reflexivity.
  - apply path_param_p1.
  - exists patient. unfold Demo.w_created. rewrite Hrun. cbn [snd].
    rewrite Hget. split; [reflexivity|].
    split; [rewrite Hf by (cbn; tauto); reflexivity|].
    split; [exact Hc | exact Hu].
Defined.

(** ** Requests that cannot be served *)

Section Failures.
Context `{Runtime}.

Lemma lambda_handler_raises (event : item) (p m : string) (op : operation)
    (e : exn) (w w' : world) :
  event !! "resource" = Some (JStr p) ->
  event !! "httpMethod" = Some (JStr m) ->
  In (p, m, op) routing_table ->
  handler op event w = (inl e, w') ->
  (forall msg, e <> ClientError msg) ->
  lambda_handler event w = (unexpected_error e, w').
Proof.
  intros Hr Hm Hin Hrun He. unfold lambda_handler.
  rewrite (dispatch_routed _ _ _ _ _ Hr Hm Hin), Hrun.
  destruct e; try reflexivity. destruct (He msg). reflexivity.
Qed.

Lemma create_patient_missing (event b : item) (w : world) :
  body_is event (JObj b) ->
  Exists (fun f => b !! f = None) patient_fields ->
  exists f, In f patient_fields /\ b !! f = None
            /\ create_patient event w = (inl (KeyError f), w).
Proof.
  intros Hbody Hmiss. unfold create_patient.
  rewrite (bind_request_body _ _ _ _ Hbody).
  unfold patient_fields in *.
  repeat
    match goal with
    | |- context [lift (subscript (JObj b) ?f) ≫= _] =>
        let Hf := fresh "Hf" in
        destruct (b !! f) as [?v|] eqn:Hf;
        [ rewrite (bind_subscript _ _ _ _ _ Hf)
        | exists f; split; [cbn; tauto|]; split; [exact Hf|];
          rewrite bind_run; unfold lift, subscript; rewrite Hf; reflexivity ]
    end.
  exfalso.
  repeat (apply Exists_cons in Hmiss as [Hmiss | Hmiss]; [congruence|]).
  inversion Hmiss.
Qed.

Lemma path_parameter_fails (event : item) (name : string) (w : world) :
  (event !! "pathParameters" = None ->
     path_parameter event name w = (inl (KeyError "pathParameters"), w))
  /\ (event !! "pathParameters" = Some JNull ->
     path_parameter event name w = (inl TypeError, w))
  /\ (forall ps : item,
        event !! "pathParameters" = Some (JObj ps) -> ps !! name = None ->
        path_parameter event name w = (inl (KeyError name), w)).
Proof.
  unfold path_parameter. rewrite !bind_run. unfold lift, subscript.
  split; [|split].
  - intros ->. reflexivity.
  - intros ->. reflexivity.
  - intros ps -> Hps. cbn. rewrite Hps. reflexivity.
Qed.

(** Every operation but create starts by reading the path parameter id. *)
Lemma handler_path_failure (op : operation) (event : item) (e : exn) (w : world) :
  op <> CreatePatient ->
  path_parameter event "id" w = (inl e, w) ->
  handler op event w = (inl e, w).
Proof.
  intros Hop Hfail.
  destruct op; [congruence| | | | | | | |]; cbn [handler];
    unfold get_patient, update_patient, delete_patient, add_note_to_patient,
      get_all_notes_for_patient, get_note, update_note, delete_note;
    rewrite bind_run, Hfail; reflexivity.
Qed.

End Failures.

(** X5: create with a body that lacks one of the nine fields is answered 500
    with Unexpected error and the text of the key error for a missing field;
    nothing is written and nothing else of the world changes. *)
Theorem create_missing_field `{Runtime} (event b : item) (w : world) :
  event !! "resource" = Some (JStr "/patients") ->
  event !! "httpMethod" = Some (JStr "POST") ->
  body_is event (JObj b) ->
  Exists (fun f => b !! f = None) patient_fields ->
  exists f : string,
    In f patient_fields /\ b !! f = None
    /\ lambda_handler event w
       = (response_with_cors 500
            (JStr ("Unexpected error: " ++ exc_str (KeyError f))), w).
Proof.
  intros Hr Hm Hbody Hmiss.
  destruct (create_patient_missing _ _ w Hbody Hmiss) as (f & Hin & Hf & Hrun).
  exists f. split; [exact Hin|]. split; [exact Hf|].
  apply (lambda_handler_raises _ "/patients" "POST" CreatePatient);
    first [assumption | discriminate | cbn; tauto].
Qed.

Lemma create_missing_field_witness :
  exists f : string,
    In f patient_fields
    /\ lambda_handler (Demo.request "/patients" "POST" [] (Some Demo.email_text)) Demo.w0
       = (response_with_cors 500 (JStr ("Unexpected error: " ++ exc_str (KeyError f))),
          Demo.w0).
Proof.
  destruct (create_missing_field
              (Demo.request "/patients" "POST" [] (Some Demo.email_text))
              Demo.email_json Demo.w0) as (f & Hin & Hf & Hrun).
  - reflexivity.
  - reflexivity.
  - exists Demo.email_text. split; reflexivity.
  - apply Exists_cons_hd. reflexivity.
  - exists f. split; [exact Hin | exact Hrun].
Defined.

(** X6: for every operation but create, a request whose path parameter id
    cannot be read (no pathParameters, a null pathParameters, or no id in it)
    is answered 500 with Unexpected error and the text of the exception; the
    store is not called and the world stays as it was. *)
Theorem missing_path_parameter `{Runtime}
    (event : item) (p m : string) (op : operation) (w : world) :
  event !! "resource" = Some (JStr p) ->
  event !! "httpMethod" = Some (JStr m) ->
  In (p, m, op) routing_table ->
  op <> CreatePatient ->
  (event !! "pathParameters" = None ->
     lambda_handler event w
     = (response_with_cors 500
          (JStr ("Unexpected error: " ++ exc_str (KeyError "pathParameters"))), w))
  /\ (event !! "pathParameters" = Some JNull ->
     lambda_handler event w
     = (response_with_cors 500 (JStr ("Unexpected error: " ++ exc_str TypeError)), w))
  /\ (forall ps : item,
        event !! "pathParameters" = Some (JObj ps) -> ps !! "id" = None ->
        lambda_handler event w
        = (response_with_cors 500
             (JStr ("Unexpected error: " ++ exc_str (KeyError "id"))), w)).
Proof.
  intros Hr Hm Hin Hop.
  destruct (path_parameter_fails event "id" w) as (Habs & Hnull & Hid).
  split; [|split].
  - intros Hps. apply (lambda_handler_raises _ p m op);
      first [assumption | discriminate | apply handler_path_failure; auto].
  - intros Hps. apply (lambda_handler_raises _ p m op);
      first [assumption | discriminate | apply handler_path_failure; auto].
  - intros ps Hps Hnone. apply (lambda_handler_raises _ p m op);
      first [assumption | discriminate | apply handler_path_failure; eauto].
Qed.

Lemma missing_path_parameter_witness :
  lambda_handler (delete "pathParameters" Demo.get_p1) Demo.w_created
  = (response_with_cors 500 (JStr "Unexpected error: 'pathParameters'"), Demo.w_created).
Proof.
  destruct (missing_path_parameter (delete "pathParameters" Demo.get_p1)
              "/patients/{id}" "GET" GetPatient Demo.w_created) as [Habs _].
  - reflexivity.
  - reflexivity.
  - cbn. tauto.
  - discriminate.
  - rewrite Habs; reflexivity.
Defined.

Section BodyFailures.
Context `{Runtime}.

Lemma request_body_fails (event : item) (raw : json) (e : exn) (w : world) :
  event !! "body" = Some raw -> loads_value raw = inl e ->
  request_body event w = (inl e, w).
Proof.
  intros Hb He. unfold request_body. rewrite bind_run. unfold lift, subscript.
  rewrite Hb. cbn. rewrite He. reflexivity.
Qed.

Lemma loads_value_error (raw : json) (e : exn) :
  loads_value raw = inl e -> e = TypeError \/ e = JSONDecodeError.
Proof.
  destruct raw; cbn; intros He; try (injection He as <-; auto).
  destruct (json_loads s); [discriminate He | injection He as <-; auto].
Qed.

Lemma handler_body_failure (op : operation) (event : item) (pid : string)
    (e : exn) (w : world) :
  reads_body op ->
  (op <> CreatePatient -> path_param event "id" pid) ->
  (op = UpdateNote -> exists nid, path_param event "noteId" nid) ->
  request_body event w = (inl e, w) ->
  handler op event w = (inl e, w).
Proof.
  intros Hop Hid Hnote Hfail.
  destruct Hop as [-> | [-> | [-> | ->]]]; cbn [handler].
  - unfold create_patient. rewrite bind_run, Hfail. reflexivity.
  - unfold update_patient.
    rewrite (bind_path_parameter _ _ _ _ _ (Hid ltac:(discriminate))).
    rewrite bind_run, Hfail. reflexivity.
  - unfold add_note_to_patient.
    rewrite (bind_path_parameter _ _ _ _ _ (Hid ltac:(discriminate))).
    rewrite bind_run, Hfail. reflexivity.
  - unfold update_note. destruct (Hnote eq_refl) as [nid Hnid].
    rewrite (bind_path_parameter _ _ _ _ _ (Hid ltac:(discriminate))).
    rewrite (bind_path_parameter _ _ _ _ _ Hnid).
    rewrite bind_run, Hfail. reflexivity.
Qed.

End BodyFailures.

(** X7: for the four operations that read the body (create, update-patient,
    add-note, update-note), a body that is no text or a text that does not
    decode is answered 500 with Unexpected error and the text of the
    exception; the store is not called, not even read, and the world stays as
    it was. *)
Theorem unreadable_body `{Runtime}
    (event : item) (p m : string) (op : operation) (pid : string)
    (raw : json) (e : exn) (w : world) :
  event !! "resource" = Some (JStr p) ->
  event !! "httpMethod" = Some (JStr m) ->
  In (p, m, op) routing_table ->
  reads_body op ->
  (op <> CreatePatient -> path_param event "id" pid) ->
  (op = UpdateNote -> exists nid, path_param event "noteId" nid) ->
  event !! "body" = Some raw ->
  loads_value raw = inl e ->
  lambda_handler event w
  = (response_with_cors 500 (JStr ("Unexpected error: " ++ exc_str e)), w).
Proof.
  intros Hr Hm Hin Hop Hid Hnote Hb He.
  apply (lambda_handler_raises _ p m op); try assumption.
  - apply (handler_body_failure _ _ pid); try assumption.
    exact (request_body_fails _ _ _ _ Hb He).
  - intros msg ->. destruct (loads_value_error _ _ He); discriminate.
Qed.

Lemma unreadable_body_witness :
  lambda_handler (Demo.note_request "PUT" "n1" (Some "{author:")) Demo.w_two_notes
  = (response_with_cors 500 (JStr ("Unexpected error: " ++ exc_str JSONDecodeError)),
     Demo.w_two_notes).
Proof.
  apply (unreadable_body (Demo.note_request "PUT" "n1" (Some "{author:"))
           "/patients/{id}/notes/{noteId}" "PUT" UpdateNote "p1"
           (JStr "{author:") JSONDecodeError Demo.w_two_notes).
  - reflexivity.
  - reflexivity.
  - cbn. tauto.
  - right. right. right. reflexivity.
  - intros _. apply (path_param_note "PUT" "n1" (Some "{author:") "id"). left. reflexivity.
  - intros _. exists "n1".
    apply (path_param_note "PUT" "n1" (Some "{author:") "noteId"). right. reflexivity.
  - reflexivity.
  - reflexivity.
Defined.

(** X8: create, update-patient and add-note given a body that decodes to
    something that is no JSON object (an array, a string, a number, null) are
    answered 500 with Unexpected error; the store is not called, and add-note
    has not drawn a uuid. *)
Theorem body_not_an_object `{Runtime}
    (event : item) (p m : string) (op : operation) (pid : string)
    (j : json) (w : world) :
  event !! "resource" = Some (JStr p) ->
  event !! "httpMethod" = Some (JStr m) ->
  In (p, m, op) routing_table ->
  op = CreatePatient \/ op = UpdatePatient \/ op = AddNote ->
  (op <> CreatePatient -> path_param event "id" pid) ->
  body_is event j ->
  (forall b : item, j <> JObj b) ->
  lambda_handler event w
  = (response_with_cors 500
       (JStr ("Unexpected error: "
              ++ exc_str match op with
                         | CreatePatient => TypeError
                         | _ => AttributeError
                         end)), w).
Proof.
  intros Hr Hm Hin Hop Hid Hbody Hj.
  apply (lambda_handler_raises _ p m op); try assumption.
  - destruct Hop as [-> | [-> | ->]]; cbn [handler].
    + unfold create_patient. rewrite (bind_request_body _ _ _ _ Hbody).
      destruct j; try reflexivity. destruct (Hj m0). reflexivity.
    + unfold update_patient.
      rewrite (bind_path_parameter _ _ _ _ _ (Hid ltac:(discriminate))).
      rewrite (bind_request_body _ _ _ _ Hbody).
      destruct j; try reflexivity. destruct (Hj m0). reflexivity.
    + unfold add_note_to_patient.
      rewrite (bind_path_parameter _ _ _ _ _ (Hid ltac:(discriminate))).
      rewrite (bind_request_body _ _ _ _ Hbody).
      destruct j; try reflexivity. destruct (Hj m0). reflexivity.
  - intros msg. destruct op; discriminate.
Qed.

Lemma body_not_an_object_witness :
  @lambda_handler array_runtime
    (Demo.request "/patients/{id}/notes" "POST" [("id", "p1")] (Some "[]")) Demo.w_created
  = (@response_with_cors array_runtime 500
       (JStr ("Unexpected error: " ++ Demo.exc_text AttributeError)),
     Demo.w_created).
Proof.
  apply (@body_not_an_object array_runtime
           (Demo.request "/patients/{id}/notes" "POST" [("id", "p1")] (Some "[]"))
           "/patients/{id}/notes" "POST" AddNote "p1" (JList []) Demo.w_created).
  - reflexivity.
  - reflexivity.
  - cbn. tauto.
  - right. right. reflexivity.
  - intros _. exists {[ "id" := JStr "p1" ]}, "p1". repeat split; reflexivity.
  - exists "[]". split; reflexivity.
  - discriminate.
Defined.

(** ** Notes: lookups, misses and what a write leaves behind *)

Section Scans.
Context `{Runtime}.

Lemma find_note_index_absent (i : string) (ns : list item) (start : nat) :
  Forall has_id ns -> id_free i ns ->
  find_note_index i start (JObj <$> ns) = inr None.
Proof.
  revert start. induction ns as [|n ns IH]; intros start Hwf Hfree; [reflexivity|].
  inversion Hwf as [|? ? [v Hv] Hwf']; subst.
  inversion Hfree as [|? ? Hn Hfree']; subst.
  cbn. rewrite Hv.
  assert (eq_str v i = false) as -> by (apply eq_str_false; congruence).
  auto.
Qed.

Lemma find_note_first (i : string) (pre : list item) (n : item) (post : list json) :
  Forall has_id pre -> id_free i pre -> n !! "id" = Some (JStr i) ->
  find_note i ((JObj <$> pre) ++ JObj n :: post) = inr (Some (JObj n)).
Proof.
  intros Hwf Hfree Hid. rewrite (find_note_app _ _ _ Hwf Hfree).
  cbn. rewrite Hid. cbn. rewrite String.eqb_refl. reflexivity.
Qed.

Lemma find_note_others_same (i : string) (ns : list item) :
  Forall has_id ns -> find_note i (JObj <$> others i ns) = inr None.
Proof.
  induction ns as [|n ns IH]; intros Hwf; [reflexivity|].
  inversion Hwf as [|? ? [v Hv] Hwf']; subst.
  unfold others in *. cbn. rewrite Hv. cbn [default from_option id].
  destruct (eq_str v i) eqn:Hvi; cbn; [auto|].
  rewrite Hv, Hvi. auto.
Qed.

Lemma find_note_others_other (i j : string) (ns : list item) :
  Forall has_id ns -> j <> i ->
  find_note j (JObj <$> others i ns) = find_note j (JObj <$> ns).
Proof.
  intros Hwf Hji. induction ns as [|n ns IH]; [reflexivity|].
  inversion Hwf as [|? ? [v Hv] Hwf']; subst.
  unfold others in *. cbn. rewrite Hv. cbn [default from_option id].
  destruct (eq_str v i) eqn:Hvi; cbn.
  - apply eq_str_true in Hvi. subst v. cbn.
    rewrite (proj2 (String.eqb_neq i j)) by congruence. auto.
  - rewrite Hv. destruct (eq_str v j); auto.
Qed.

(** The index scan stops at the first bearer: none before it bears the id. *)
Lemma find_note_index_first (i : string) (ns : list item) (start : nat) :
  Forall has_id ns ->
  Exists (fun n : item => n !! "id" = Some (JStr i)) ns ->
  exists (k : nat) (n : item),
    find_note_index i start (JObj <$> ns) = inr (Some (start + k)%nat)
    /\ ns !! k = Some n
    /\ n !! "id" = Some (JStr i)
    /\ id_free i (take k ns).
Proof.
  revert start. induction ns as [|n ns IH]; intros start Hwf Hex.
  - inversion Hex.
  - inversion Hwf as [|? ? [v Hv] Hwf']; subst. cbn. rewrite Hv.
    destruct (eq_str v i) eqn:Hvi.
    + apply eq_str_true in Hvi. subst v.
      exists 0%nat, n. rewrite Nat.add_0_r. repeat split; auto. constructor.
    + apply eq_str_false in Hvi.
      inversion Hex as [? ? Hhd | ? ? Htl]; subst; [congruence|].
      destruct (IH (S start) Hwf' Htl) as (k & n' & Hrun & Hk & Hid & Hfree).
      exists (S k), n'. rewrite Hrun.
      replace (start + S k)%nat with (S start + k)%nat by lia.
      repeat split; auto. cbn. constructor; [congruence | exact Hfree].
Qed.

End Scans.

(** X9: get-note, update-note and delete-note on a patient whose row is
    absent, or has no notes attribute, answer 404 Note not found; the table is
    unchanged and the one call the store has seen is the read of the row. *)
Theorem notes_not_found `{Runtime}
    (op : operation) (event : item) (pid nid : string) (w : world) :
  on_one_note op ->
  path_param event "id" pid -> path_param event "noteId" nid ->
  (op = UpdateNote -> exists j, body_is event j) ->
  table w !! patient_key pid = None
  \/ (exists row : item,
        table w !! patient_key pid = Some row /\ row !! "notes" = None) ->
  (handler op event w).1 = inr (response_with_cors 404 (JStr "Note not found"))
  /\ table (handler op event w).2 = table w
  /\ calls (handler op event w).2 = GetItem (patient_key pid) :: calls w.
Proof.
  intros Hop Hp Hn Hbody Hrow.
  destruct Hop as [-> | [-> | ->]]; cbn [handler];
    unfold get_note, update_note, delete_note;
    rewrite (bind_path_parameter _ _ _ _ _ Hp), (bind_path_parameter _ _ _ _ _ Hn);
    try (destruct (Hbody eq_refl) as [j Hj];
         rewrite (bind_request_body _ _ _ _ Hj));
    rewrite bind_get_item;
    (destruct Hrow as [-> | (row & -> & Hnotes)]; [|rewrite Hnotes]);
    repeat split; reflexivity.
Qed.

Lemma notes_not_found_witness :
  (delete_note (Demo.note_request "DELETE" "n1" None) Demo.w0).1
  = inr (response_with_cors 404 (JStr "Note not found")).
Proof.
  apply (notes_not_found DeleteNote (Demo.note_request "DELETE" "n1" None)
           "p1" "n1" Demo.w0).
  - right. right. reflexivity.
  - apply (path_param_note "DELETE" "n1" None "id"). left. reflexivity.
  - apply (path_param_note "DELETE" "n1" None "noteId"). right. reflexivity.
  - discriminate.
  - left. reflexivity.
Defined.

(** X10: update-note for an id that no note of the patient bears answers 404
    Note not found and writes nothing, whatever the body decodes to (it need
    not even be an object). *)
Theorem update_note_unknown_id `{Runtime}
    (u : item) (pid i : string) (j : json) (row : item) (ns : list item) (w : world) :
  path_param u "id" pid -> path_param u "noteId" i ->
  body_is u j ->
  table w !! patient_key pid = Some row ->
  row !! "notes" = Some (JList (JObj <$> ns)) ->
  Forall has_id ns -> id_free i ns ->
  (update_note u w).1 = inr (response_with_cors 404 (JStr "Note not found"))
  /\ table (update_note u w).2 = table w
  /\ calls (update_note u w).2 = GetItem (patient_key pid) :: calls w.
Proof.
  intros Hp Hi Hbody Hrow Hnotes Hwf Hfree. unfold update_note.
  rewrite (bind_path_parameter _ _ _ _ _ Hp), (bind_path_parameter _ _ _ _ _ Hi).
  rewrite (bind_request_body _ _ _ _ Hbody), bind_get_item, Hrow, Hnotes.
  cbn [py_iter]. rewrite bind_lift.
  rewrite (find_note_index_absent _ _ _ Hwf Hfree), bind_lift.
  repeat split; reflexivity.
Qed.

Lemma update_note_unknown_id_witness :
  (update_note (Demo.note_request "PUT" "n9" (Some Demo.stamp_text)) Demo.w_two_notes).1
  = inr (response_with_cors 404 (JStr "Note not found")).
Proof.
  apply (update_note_unknown_id (Demo.note_request "PUT" "n9" (Some Demo.stamp_text))
           "p1" "n9" (JObj Demo.stamp_json) Demo.row_two_notes Demo.two_notes
           Demo.w_two_notes).
  - apply (path_param_note "PUT" "n9" (Some Demo.stamp_text) "id"). left. reflexivity.
  - apply (path_param_note "PUT" "n9" (Some Demo.stamp_text) "noteId"). right. reflexivity.
  - exists Demo.stamp_text. split; reflexivity.
  - reflexivity.
  - reflexivity.
  - exact two_notes_well_formed.
  - repeat constructor; vm_compute; discriminate.
Defined.

(** X11: get-note returns the first note of the sequence that bears the id,
    and does not look at what comes after it: the notes after the match may
    be anything. *)
Theorem get_note_first_match `{Runtime}
    (g : item) (pid i : string) (row : item)
    (pre : list item) (n : item) (post : list json) (w : world) :
  path_param g "id" pid -> path_param g "noteId" i ->
  table w !! patient_key pid = Some row ->
  row !! "notes" = Some (JList ((JObj <$> pre) ++ JObj n :: post)) ->
  Forall has_id pre -> id_free i pre ->
  n !! "id" = Some (JStr i) ->
  (get_note g w).1 = inr (response_with_cors 200 (JObj n)).
Proof.
  intros Hp Hi Hrow Hnotes Hwf Hfree Hid.
  rewrite (get_note_run _ _ _ _ _ _ Hp Hi Hrow Hnotes).
  rewrite (find_note_first _ _ _ _ Hwf Hfree Hid).
  rewrite truthy_note by (eexists; eauto). reflexivity.
Qed.

Lemma get_note_first_match_witness :
  exists n : item,
    (get_note (Demo.note_request "GET" "n2" None) Demo.w_two_notes).1
    = inr (response_with_cors 200 (JObj n))
    /\ n !! "id" = Some (JStr "n2").
Proof.
  destruct Demo.two_notes as [|n1 [|n2 rest]] eqn:Hns; try discriminate Hns.
  exists n2.
  assert (n2 !! "id" = Some (JStr "n2")) as Hid
      by (injection Hns as _ <- _; reflexivity).
  split; [|exact Hid].
  apply (get_note_first_match (Demo.note_request "GET" "n2" None) "p1" "n2"
           Demo.row_two_notes [n1] n2 (JObj <$> rest) Demo.w_two_notes).
  - apply (path_param_note "GET" "n2" None "id"). left. reflexivity.
  - apply (path_param_note "GET" "n2" None "noteId"). right. reflexivity.
  - reflexivity.
  - injection Hns as <- <- <-. reflexivity.
  - injection Hns as <- _ _. repeat constructor. eexists. reflexivity.
  - injection Hns as <- _ _. repeat constructor. vm_compute. discriminate.
  - exact Hid.
Defined.

(** X12: after delete-note for the id i, the row keeps its other attributes
    and the notes of another id in their order; get-note for i answers 404,
    and get-note for any other id answers what it answered before. *)
Theorem delete_note_then_get_note `{Runtime}
    (d : item) (pid i : string) (row : item) (ns : list item) (w : world) :
  path_param d "id" pid -> path_param d "noteId" i ->
  table w !! patient_key pid = Some row ->
  row !! "notes" = Some (JList (JObj <$> ns)) ->
  Forall has_id ns ->
  let w' := (delete_note d w).2 in
  table w' !! patient_key pid = Some (<["notes" := JList (JObj <$> others i ns)]> row)
  /\ forall (g : item) (j : string),
       path_param g "id" pid -> path_param g "noteId" j ->
       (j = i -> (get_note g w').1
                 = inr (response_with_cors 404 (JStr "Note not found")))
       /\ (j <> i -> (get_note g w').1 = (get_note g w).1).
Proof.
  intros Hp Hi Hrow Hnotes Hwf. cbv zeta. unfold delete_note.
  rewrite (bind_path_parameter _ _ _ _ _ Hp), (bind_path_parameter _ _ _ _ _ Hi).
  rewrite bind_get_item, Hrow, Hnotes. cbn [py_iter]. rewrite bind_lift.
  rewrite (without_note_total _ _ Hwf), bind_lift, bind_run.
  rewrite (write_notes_run _ row) by (cbn [table log_call]; exact Hrow).
  cbn [snd table set_table log_call].
  assert (forall t : gmap key item,
            <[patient_key pid := <["notes" := JList (JObj <$> others i ns)]> row]> t
              !! patient_key pid
            = Some (<["notes" := JList (JObj <$> others i ns)]> row)) as Hnew
      by (intros; apply lookup_insert_eq).
  split; [apply Hnew|].
  intros g j Hg Hj.
  match goal with
  | |- context [get_note g ?w1] =>
      rewrite (get_note_run g pid j _ (JObj <$> others i ns) w1 Hg Hj
                 (Hnew _) (lookup_insert_eq _ _ _))
  end.
  split.
  - intros ->. rewrite (find_note_others_same _ _ Hwf). reflexivity.
  - intros Hji. rewrite (find_note_others_other _ _ _ Hwf Hji).
    rewrite (get_note_run _ _ _ _ _ _ Hg Hj Hrow Hnotes). reflexivity.
Qed.

Lemma delete_note_then_get_note_witness :
  (get_note (Demo.note_request "GET" "n1" None)
     (delete_note (Demo.note_request "DELETE" "n1" None) Demo.w_two_notes).2).1
  = inr (response_with_cors 404 (JStr "Note not found")).
Proof.
  destruct (delete_note_then_get_note (Demo.note_request "DELETE" "n1" None)
              "p1" "n1" Demo.row_two_notes Demo.two_notes Demo.w_two_notes)
    as [_ Hget].
  - apply (path_param_note "DELETE" "n1" None "id"). left. reflexivity.
  - apply (path_param_note "DELETE" "n1" None "noteId"). right. reflexivity.
  - reflexivity.
  - reflexivity.
  - exact two_notes_well_formed.
  - apply (proj1 (Hget (Demo.note_request "GET" "n1" None) "n1"
                    (path_param_note "GET" "n1" None "id" (or_introl eq_refl))
                    (path_param_note "GET" "n1" None "noteId" (or_intror eq_refl)))).
    reflexivity.
Defined.

(** X13: update-note followed by get-note for the same id returns the
    updated note (the keys of the body merged in, updatedAt the time of the
    update), provided the body does not change the note's id. *)
Theorem update_note_then_get_note `{Runtime}
    (u g : item) (pid i : string) (b row : item) (ns : list item) (w : world) :
  path_param u "id" pid -> path_param u "noteId" i ->
  body_is u (JObj b) ->
  b !! "id" = None \/ b !! "id" = Some (JStr i) ->
  path_param g "id" pid -> path_param g "noteId" i ->
  table w !! patient_key pid = Some row ->
  row !! "notes" = Some (JList (JObj <$> ns)) ->
  Forall has_id ns ->
  Exists (fun n : item => n !! "id" = Some (JStr i)) ns ->
  exists n' : item,
    (get_note g (update_note u w).2).1 = inr (response_with_cors 200 (JObj n'))
    /\ n' !! "id" = Some (JStr i)
    /\ n' !! "updatedAt" = Some (JStr (isoformat_now (clock w)))
    /\ forall a v, b !! a = Some v -> a <> "updatedAt" -> n' !! a = Some v.
Proof.
  intros Hp Hi Hbody Hbid Hg Hgi Hrow Hnotes Hwf Hex. unfold update_note.
  rewrite (bind_path_parameter _ _ _ _ _ Hp), (bind_path_parameter _ _ _ _ _ Hi).
  rewrite (bind_request_body _ _ _ _ Hbody), bind_get_item, Hrow, Hnotes.
  cbn [py_iter]. rewrite bind_lift.
  destruct (find_note_index_first i ns 0 Hwf Hex) as (k & n & Hscan & Hk & Hid & Hfree).
  rewrite Hscan, bind_lift. cbn [dict_items Nat.add]. rewrite bind_lift.
  rewrite list_lookup_fmap, Hk. cbn [fmap option_fmap option_map].
  rewrite bind_now, bind_run.
  set (n' := <["updatedAt" := JStr (isoformat_now (clock w))]>
               (merge_items n (map_to_list b))).
  rewrite (write_notes_run _ row) by (cbn [table log_call]; exact Hrow).
  cbn [snd].
  assert (n' !! "id" = Some (JStr i)) as Hid'.
  { subst n'. rewrite lookup_insert_ne by discriminate.
    rewrite merge_items_lookup. destruct Hbid as [-> | ->]; auto. }
  exists n'. split.
  - match goal with
    | |- context [get_note g ?w1] =>
        rewrite (get_note_run g pid i (<["notes" := JList (<[k := JObj n']> (JObj <$> ns))]> row)
                   (<[k := JObj n']> (JObj <$> ns)) w1 Hg Hgi)
    end.
    + rewrite <- list_fmap_insert.
      rewrite (insert_take_drop ns k n') by (eapply lookup_lt_Some; exact Hk).
      rewrite fmap_app, fmap_cons.
      rewrite (find_note_first i (take k ns) n' _ (Forall_take _ _ _ Hwf) Hfree Hid').
      rewrite truthy_note by (eexists; eauto). reflexivity.
    + cbn [table set_table log_call]. apply lookup_insert_eq.
    + apply lookup_insert_eq.
  - split; [exact Hid'|]. split; [apply lookup_insert_eq|].
    intros a v Hav Ha. subst n'. rewrite lookup_insert_ne by congruence.
    rewrite merge_items_lookup, Hav. reflexivity.
Qed.

Lemma update_note_then_get_note_witness :
  exists n' : item,
    (get_note (Demo.note_request "GET" "n1" None)
       (update_note (Demo.note_request "PUT" "n1" (Some Demo.stamp_text))
          Demo.w_two_notes).2).1
    = inr (response_with_cors 200 (JObj n'))
    /\ n' !! "updatedAt" = Some (JStr "2024-03-01T09:10:00.750000").
Proof.
  destruct (update_note_then_get_note
              (Demo.note_request "PUT" "n1" (Some Demo.stamp_text))
              (Demo.note_request "GET" "n1" None)
              "p1" "n1" Demo.stamp_json Demo.row_two_notes Demo.two_notes
              Demo.w_two_notes) as (n' & Hget & _ & Hstamp & _).
  - apply (path_param_note "PUT" "n1" (Some Demo.stamp_text) "id"). left. reflexivity.
  - apply (path_param_note "PUT" "n1" (Some Demo.stamp_text) "noteId"). right. reflexivity.
  - exists Demo.stamp_text. split; reflexivity.
  - left. reflexivity.
  - apply (path_param_note "GET" "n1" None "id"). left. reflexivity.
  - apply (path_param_note "GET" "n1" None "noteId"). right. reflexivity.
  - reflexivity.
  - reflexivity.
  - exact two_notes_well_formed.
  - apply Exists_cons_hd. reflexivity.
  - exists n'. split; [exact Hget | exact Hstamp].
Defined.

(** X14: the note add-note appends.  Its id is the body's id when there is
    one (whatever its type) and Note# followed by a fresh uuid otherwise; its
    patientId is the decoded path id, its type is Note, createdAt and
    updatedAt are two consecutive clock readings, and it has no attribute
    beyond the seven: other keys of the body are dropped.  The row keeps its
    earlier notes, in order, before the new one and its other attributes as
    they were. *)
Theorem add_note_builds_note `{Runtime}
    (event b : item) (pid : string) (author content : json)
    (old : list json) (w : world) :
  path_param event "id" pid ->
  body_is event (JObj b) ->
  b !! "author" = Some author ->
  b !! "content" = Some content ->
  stored_notes w pid = Some old ->
  exists (note row' : item) (w' : world),
    add_note_to_patient event w = (inr (response_with_cors 201 (JObj row')), w')
    /\ table w' !! patient_key pid = Some row'
    /\ row' !! "notes" = Some (JList (old ++ [JObj note]))
    /\ (b !! "id" = None ->
        note !! "id" = Some (JStr ("Note#" ++ uuid4 (entropy w))))
    /\ (forall v, b !! "id" = Some v -> note !! "id" = Some v)
    /\ note !! "patientId" = Some (JStr pid)
    /\ note !! "type" = Some (JStr "Note")
    /\ note !! "createdAt" = Some (JStr (isoformat_now (clock w)))
    /\ note !! "updatedAt" = Some (JStr (isoformat_now (S (clock w))))
    /\ (forall a, ~ In a note_attributes -> note !! a = None)
    /\ (forall row, table w !! patient_key pid = Some row ->
        forall a, a <> "notes" -> row' !! a = row !! a).
Proof.
  intros Hp Hbody Ha Hc Hold.
  unfold add_note_to_patient.
  rewrite (bind_path_parameter _ _ _ _ _ Hp), (bind_request_body _ _ _ _ Hbody).
  rewrite bind_fresh_uuid, Ha, Hc.
  rewrite !bool_decide_eq_true_2 by eauto. cbn [negb orb].
  rewrite (bind_subscript _ _ _ _ _ Hc), (bind_subscript _ _ _ _ _ Ha), !bind_now.
  cbn [clock table calls entropy].
  match goal with
  | |- context [JList [JObj ?fs]] => set (note := fs)
  end.
  unfold except_ClientError. rewrite bind_run. unfold update_item.
  cbn [table set_table log_call append_expression apply_set eval_operand].
  rewrite lookup_insert_eq, lookup_insert_ne by discriminate.
  rewrite lookup_insert_eq.
  assert (forall a, ~ In a note_attributes -> note !! a = None) as Hattrs.
  { intros a Hna. apply (not_elem_of_list_to_map_1 (M := gmap string)).
    intros Hin. apply Hna. apply list_elem_of_In in Hin. cbn in Hin. cbn. tauto. }
  assert (forall old_row : item,
            (table w !! patient_key pid = Some old_row
             \/ (table w !! patient_key pid = None /\ old_row = key_item (patient_key pid))) ->
            forall row, table w !! patient_key pid = Some row ->
            forall a, a <> "notes" ->
              <["notes" := JList (old ++ [JObj note])]> old_row !! a = row !! a) as Hframe.
  { intros old_row [Hsome | [Hnone _]] row Hrow a Hne; [|congruence].
    rewrite lookup_insert_ne by congruence. congruence. }
  unfold stored_notes in Hold. fold (patient_key pid) in Hold.
  destruct (table w !! patient_key pid) as [row|] eqn:Hrow;
    cbn [default from_option id].
  - destruct (row !! "notes") as [[| | | | |l|]|] eqn:Hnotes; try discriminate Hold;
      injection Hold as <-; exists note; do 2 eexists;
      (split; [reflexivity|]); cbn [table set_table log_call];
      (split; [apply lookup_insert_eq|]); (split; [apply lookup_insert_eq|]);
      (split; [intros Hb; subst note; rewrite Hb; reflexivity|]);
      (split; [intros v Hb; subst note; rewrite Hb; reflexivity|]);
      (split; [reflexivity|]); (split; [reflexivity|]);
      (split; [reflexivity|]); (split; [reflexivity|]);
      (split; [exact Hattrs|]);
      apply Hframe; auto.
  - injection Hold as <-. exists note. do 2 eexists.
    split; [reflexivity|]. cbn [table set_table log_call].
    split; [apply lookup_insert_eq|]. split; [apply lookup_insert_eq|].
    split; [intros Hb; subst note; rewrite Hb; reflexivity|].
    split; [intros v Hb; subst note; rewrite Hb; reflexivity|].
    split; [reflexivity|]. split; [reflexivity|].
    split; [reflexivity|]. split; [reflexivity|].
    split; [exact Hattrs|]. intros row' Hrow'. discriminate Hrow'.
Qed.
